(** * whatsapp-order-backend: the webhook handlers of [src/index.js]

    A shallow embedding of the two copies of [index.js] (lines 1-171 and
    172-339): the webhook verification handler, the order extractor
    [parseOrderAI], the catalog [PRODUCTS] and the pricing block of the POST
    handler, with the fragment of the JavaScript semantics they rely on
    (property reads through the prototype chain, truthiness, [===],
    number coercion, exceptions and [try]/[catch]).

    JavaScript numbers are IEEE 754 binary64 values: they are Rocq's
    primitive floats, and [*] is [PrimFloat.mul]. *)

From Stdlib Require Import List NArith Bool String Ascii Floats Lia.
Import ListNotations.

Set Warnings "-register-all".
Local Open Scope N_scope.

(** ** Strings: sequences of UTF-16 code units *)

Definition jsstring := list N.

Definition str (s : string) : jsstring :=
  map N_of_ascii (list_ascii_of_string s).

Fixpoint jsstring_eqb (a b : jsstring) : bool :=
  match a, b with
  | [], [] => true
  | x :: a', y :: b' => (x =? y) && jsstring_eqb a' b'
  | _, _ => false
  end.

Definition quote : jsstring := [34].     (* the double quote *)
Definition newline : jsstring := [10].
Definition rupee : jsstring := [8377].   (* U+20B9 *)

(** Decimal digits of a natural number, for [Date.now()] inside a template. *)
Fixpoint digits_of_uint (d : Decimal.uint) : jsstring :=
  match d with
  | Decimal.Nil => []
  | Decimal.D0 r => 48 :: digits_of_uint r
  | Decimal.D1 r => 49 :: digits_of_uint r
  | Decimal.D2 r => 50 :: digits_of_uint r
  | Decimal.D3 r => 51 :: digits_of_uint r
  | Decimal.D4 r => 52 :: digits_of_uint r
  | Decimal.D5 r => 53 :: digits_of_uint r
  | Decimal.D6 r => 54 :: digits_of_uint r
  | Decimal.D7 r => 55 :: digits_of_uint r
  | Decimal.D8 r => 56 :: digits_of_uint r
  | Decimal.D9 r => 57 :: digits_of_uint r
  end.

Definition decimal (n : N) : jsstring := digits_of_uint (N.to_uint n).

(** *** Case conversion

    [String.prototype.toLowerCase] and [toUpperCase] follow the Unicode
    case mappings.  The tables below spell out Basic Latin and the Latin-1
    Supplement, and beyond them the code points that map into Basic Latin
    (the only ones that can bring a string onto an ASCII catalog key):
    U+212A (KELVIN SIGN) and U+0130 (I with dot above, whose lower case is
    i followed by U+0307) for lower case; U+0131 (dotless i), U+017F (long
    s) and the ligatures U+FB00..U+FB06 for upper case.  Other code units
    are left as they are; no statement below is about them. *)

Definition is_ascii (c : N) : bool := c <? 128.

Definition lower_unit (c : N) : jsstring :=
  if (65 <=? c) && (c <=? 90) then [c + 32]                         (* A-Z *)
  else if (192 <=? c) && (c <=? 222) && negb (c =? 215) then [c + 32]
  else if c =? 304 then [105; 775]                  (* U+0130 -> i, U+0307 *)
  else if c =? 8490 then [107]                      (* U+212A -> k *)
  else [c].

Definition upper_unit (c : N) : jsstring :=
  if (97 <=? c) && (c <=? 122) then [c - 32]                        (* a-z *)
  else if c =? 181 then [924]                       (* U+00B5 -> U+039C *)
  else if c =? 223 then [83; 83]                    (* U+00DF -> SS *)
  else if (224 <=? c) && (c <=? 254) && negb (c =? 247) then [c - 32]
  else if c =? 255 then [376]                       (* U+00FF -> U+0178 *)
  else if c =? 305 then [73]                        (* U+0131 -> I *)
  else if c =? 383 then [83]                        (* U+017F -> S *)
  else if c =? 64256 then [70; 70]                  (* U+FB00 -> FF *)
  else if c =? 64257 then [70; 73]                  (* U+FB01 -> FI *)
  else if c =? 64258 then [70; 76]                  (* U+FB02 -> FL *)
  else if c =? 64259 then [70; 70; 73]              (* U+FB03 -> FFI *)
  else if c =? 64260 then [70; 70; 76]              (* U+FB04 -> FFL *)
  else if (c =? 64261) || (c =? 64262) then [83; 84] (* U+FB05/6 -> ST *)
  else [c].

Definition toLowerCase (s : jsstring) : jsstring := flat_map lower_unit s.
Definition toUpperCase (s : jsstring) : jsstring := flat_map upper_unit s.

(** ** Values *)

(** What [JSON.parse], the query-string parser and property reads produce.
    [VNative] stands for a built-in function or object that is only reached
    through the prototype chain ([Object], [Object.prototype], ...). *)
Inductive value : Type :=
| VUndefined
| VNull
| VBool (b : bool)
| VNumber (n : float)
| VString (s : jsstring)
| VArray (elems : list value)
| VObject (props : list (jsstring * value))
| VNative (name : jsstring).

(** Thrown values. *)
Inductive exn : Type :=
| TypeError
| SyntaxError
| Failure (reason : jsstring).   (* a rejected promise of a collaborator *)

(** The completion of an expression: a value, or a throw. *)
Inductive completion (A : Type) : Type :=
| Normal (a : A)
| Throw (e : exn).
Arguments Normal {A} a.
Arguments Throw {A} e.

Definition cbind {A B} (c : completion A) (k : A -> completion B) : completion B :=
  match c with
  | Normal a => k a
  | Throw e => Throw e
  end.

(** ToBoolean. *)
Definition truthy (v : value) : bool :=
  match v with
  | VUndefined | VNull => false
  | VBool b => b
  | VNumber n => negb (PrimFloat.is_zero n || PrimFloat.is_nan n)
  | VString s => match s with [] => false | _ => true end
  | VArray _ | VObject _ | VNative _ => true
  end.

(** [a === b].  Two object operands are equal when they are one object; the
    handlers only compare a query value with a string or [undefined], so an
    object operand never meets itself. *)
Definition strict_equals (a b : value) : bool :=
  match a, b with
  | VUndefined, VUndefined => true
  | VNull, VNull => true
  | VBool x, VBool y => Bool.eqb x y
  | VNumber x, VNumber y => PrimFloat.eqb x y
  | VString x, VString y => jsstring_eqb x y
  | _, _ => false
  end.

(** *** Property reads *)

Fixpoint own_property (props : list (jsstring * value)) (k : jsstring) : option value :=
  match props with
  | [] => None
  | (k', v) :: rest => if jsstring_eqb k' k then Some v else own_property rest k
  end.

(** The properties of [Object.prototype], which every object literal and
    every object made by [JSON.parse] inherits. *)
Definition Object_prototype : list (jsstring * value) :=
  [ (str "constructor", VNative (str "Object"));
    (str "__defineGetter__", VNative (str "__defineGetter__"));
    (str "__defineSetter__", VNative (str "__defineSetter__"));
    (str "hasOwnProperty", VNative (str "hasOwnProperty"));
    (str "__lookupGetter__", VNative (str "__lookupGetter__"));
    (str "__lookupSetter__", VNative (str "__lookupSetter__"));
    (str "isPrototypeOf", VNative (str "isPrototypeOf"));
    (str "propertyIsEnumerable", VNative (str "propertyIsEnumerable"));
    (str "toString", VNative (str "toString"));
    (str "valueOf", VNative (str "valueOf"));
    (str "__proto__", VNative (str "Object.prototype"));
    (str "toLocaleString", VNative (str "toLocaleString")) ].

(** [o[k]] on a plain object: own properties, then the prototype. *)
Definition get_object (props : list (jsstring * value)) (k : jsstring) : value :=
  match own_property props k with
  | Some v => v
  | None =>
      match own_property Object_prototype k with
      | Some v => v
      | None => VUndefined
      end
  end.

(** [v.k] for the property names the handlers read ([entry], [changes],
    [value], [messages], [from], [text], [body], [product], [quantity],
    [unit], [price]): none of them is a property of a built-in prototype,
    so on anything but a plain object the read gives [undefined]; on
    [undefined] and [null] it throws. *)
Definition get (v : value) (k : jsstring) : completion value :=
  match v with
  | VUndefined | VNull => Throw TypeError
  | VObject props => Normal (get_object props k)
  | _ => Normal VUndefined
  end.

(** [v[0]]. *)
Definition get_index0 (v : value) : completion value :=
  match v with
  | VUndefined | VNull => Throw TypeError
  | VObject props => Normal (get_object props (str "0"))
  | VArray elems => Normal (match elems with x :: _ => x | [] => VUndefined end)
  | VString s => Normal (match s with c :: _ => VString [c] | [] => VUndefined end)
  | _ => Normal VUndefined
  end.

(** [v.toLowerCase()]: only a string has the method; a value made by
    [JSON.parse] never holds a function, so every other receiver throws. *)
Definition call_toLowerCase (v : value) : completion jsstring :=
  match v with
  | VString s => Normal (toLowerCase s)
  | _ => Throw TypeError
  end.

(** ** The world outside the handlers

    The process environment, the collaborators (the generative model, the
    Graph API behind [axios], the PDF library, the clock) and the built-in
    conversions whose code is not the repository's.  Every statement below
    is for an arbitrary world; an example fixes one. *)

Record order : Type := {
  product : value;
  quantity : value;
  unit_ : value;          (* the field [unit] *)
  price : value;
  total : float
}.

Record world : Type := {
  WHATSAPP_TOKEN : option jsstring;          (* process.env.* *)
  WHATSAPP_PHONE_ID : option jsstring;
  WHATSAPP_VERIFY_TOKEN : option jsstring;
  (* [(await model.generateContent(prompt)).response.text()]: the text, or
     the fault of the call (service unreachable, no usable response) *)
  generateContent_text : jsstring -> completion jsstring;
  JSON_parse : jsstring -> completion value;
  StringToNumber : jsstring -> float;
  NumberToString : float -> jsstring;
  Date_now : N;
  (* [axios.post(url, data, {headers: {Authorization}})] *)
  axios_post : jsstring -> value -> jsstring -> completion unit;
  (* whether a PDF document emits [finish], the event [generateInvoice]
     waits for; a pdfkit document is a Readable stream, which ends with
     [end] and emits no [finish]: [false] *)
  pdf_emits_finish : bool
}.

(** A [process.env] entry read as a value, and inside a template literal. *)
Definition env_value (e : option jsstring) : value :=
  match e with Some s => VString s | None => VUndefined end.

Definition env_text (e : option jsstring) : jsstring :=
  match e with Some s => s | None => str "undefined" end.

Section Conversions.
Variable w : world.

(** ToString, as a template literal applies it.  A plain object made by
    [JSON.parse] converts through the inherited [toString], unless it has
    an own field [toString]: that field is not callable, and neither is
    what [valueOf] gives, so the conversion throws. *)
Fixpoint ToString (v : value) : completion jsstring :=
  match v with
  | VUndefined => Normal (str "undefined")
  | VNull => Normal (str "null")
  | VBool b => Normal (if b then str "true" else str "false")
  | VNumber n => Normal (NumberToString w n)
  | VString s => Normal s
  | VArray elems =>
      (fix join (l : list value) : completion jsstring :=
         match l with
         | [] => Normal []
         | x :: r =>
             cbind (match x with
                    | VUndefined | VNull => Normal []
                    | _ => ToString x
                    end)
               (fun sx =>
                  match r with
                  | [] => Normal sx
                  | _ => cbind (join r) (fun sr => Normal (sx ++ str "," ++ sr))
                  end)
         end) elems
  | VObject props =>
      match own_property props (str "toString") with
      | Some _ => Throw TypeError
      | None => Normal (str "[object Object]")
      end
  | VNative name => Normal (str "function " ++ name ++ str "() { [native code] }")
  end.

(** ToNumber, as [*] applies it to each operand. *)
Definition ToNumber (v : value) : completion float :=
  match v with
  | VUndefined => Normal PrimFloat.nan
  | VNull => Normal 0%float
  | VBool b => Normal (if b then 1%float else 0%float)
  | VNumber n => Normal n
  | VString s => Normal (StringToNumber w s)
  | VArray _ => cbind (ToString v) (fun s => Normal (StringToNumber w s))
  | VObject _ => cbind (ToString v) (fun _ => Normal PrimFloat.nan)
  | VNative _ => Normal PrimFloat.nan
  end.

(** [a * b]. *)
Definition multiply (a b : value) : completion float :=
  cbind (ToNumber a) (fun x => cbind (ToNumber b) (fun y => Normal (x * y)%float)).
End Conversions.

(** ** Effects

    The handlers are [async] functions that call collaborators in sequence
    and may throw at each step.  A computation takes the calls made so far
    and returns how it ran with the calls made up to it; a throw keeps the
    calls made before it.  A run settles with a completion, or stays
    pending at an [await] whose promise never settles: nothing after that
    [await] runs, no [catch] block either.  ([console.log] is left out.) *)

Inductive effect : Type :=
| GenerateContent (prompt : jsstring)
| AxiosPost (url : jsstring) (data : value) (authorization : jsstring)
| GenerateInvoice (o : order) (fileName : jsstring).

Inductive run (A : Type) : Type :=
| Settled (c : completion A)
| Pending.
Arguments Settled {A} c.
Arguments Pending {A}.

(** A completion is read as the run that settles with it, also inside a
    pair of a run and its calls. *)
Coercion Settled : completion >-> run.
Arguments pair {A B}%_type_scope & a b.

Definition M (A : Type) : Type := list effect -> run A * list effect.

Definition ret {A} (a : A) : M A := fun t => (Normal a, t).

Definition bind {A B} (m : M A) (k : A -> M B) : M B :=
  fun t =>
    match m t with
    | (Settled (Normal a), t') => k a t'
    | (Settled (Throw e), t') => (Throw e, t')
    | (Pending, t') => (Pending, t')
    end.

Definition lift {A} (c : completion A) : M A := fun t => (c, t).

(** One call to a collaborator, with the completion the world gives it. *)
Definition perform {A} (e : effect) (outcome : completion A) : M A :=
  fun t => (outcome, t ++ [e]).

(** [try { body } catch (err) { handler }]. *)
Definition try_catch {A} (body : M A) (handler : exn -> M A) : M A :=
  fun t =>
    match body t with
    | (Settled (Normal a), t') => (Normal a, t')
    | (Settled (Throw e), t') => handler e t'
    | (Pending, t') => (Pending, t')
    end.

Declare Scope js_scope.
Delimit Scope js_scope with js.
Notation "x <- m ;; k" := (bind m (fun x => k))
  (at level 100, m at next level, right associativity) : js_scope.
Notation "m ;;; k" := (bind m (fun _ => k))
  (at level 100, right associativity) : js_scope.
Local Open Scope js_scope.

(** ** HTTP *)

(** [req.query] of the verification request, as the query-string parser
    gives it: each entry is [undefined], a string, an array or an object. *)
Record query : Type := {
  hub_mode : value;
  hub_verify_token : value;
  hub_challenge : value
}.

(** What the handler answers: [res.status(n).send(v)] or
    [res.sendStatus(n)] (no value sent, the body is the status text). *)
Record response : Type := {
  status : N;
  sent : option value
}.

Definition send (n : N) (v : value) : response := {| status := n; sent := Some v |}.
Definition sendStatus (n : N) : response := {| status := n; sent := None |}.

(** ** The invoice document

    The text lines [generateInvoice] writes into the document (lines 78-83
    and 245-250, the same in both copies), each with the completion of its
    template literal; font sizes, alignment and [moveDown] are left out. *)
Definition invoice_lines (w : world) (o : order) : list (completion jsstring) :=
  [ Normal (str "Invoice");
    cbind (ToString w (product o)) (fun p => Normal (str "Product: " ++ p));
    cbind (ToString w (quantity o)) (fun q =>
    cbind (ToString w (unit_ o)) (fun u =>
    Normal (str "Quantity: " ++ q ++ str " " ++ u)));
    cbind (ToString w (price o)) (fun p => Normal (str "Price: " ++ rupee ++ p));
    Normal (str "Total: " ++ rupee ++ NumberToString w (total o)) ].

(** The lines are written in order; a template literal that throws ends
    the executor of the promise: the lines before it are in the document,
    and the promise rejects with the fault. *)
Fixpoint write_lines (lines : list (completion jsstring)) : list jsstring * option exn :=
  match lines with
  | [] => ([], None)
  | Normal s :: rest => let (written, fault) := write_lines rest in (s :: written, fault)
  | Throw e :: _ => ([], Some e)
  end.

Definition invoice_text (w : world) (o : order) : list jsstring * option exn :=
  write_lines (invoice_lines w o).

(** ** The first copy (lines 1-171) *)

Module V1.

(** [PRODUCTS] (lines 27-31), an object literal. *)
Definition PRODUCTS : list (jsstring * value) :=
  [ (str "sugar", VObject [(str "price", VNumber 40%float)]);
    (str "oil", VObject [(str "price", VNumber 120%float)]);
    (str "rice", VObject [(str "price", VNumber 60%float)]) ].

Section Handlers.
Variable w : world.

Definition TOKEN : option jsstring := WHATSAPP_TOKEN w.
Definition PHONE_ID : option jsstring := WHATSAPP_PHONE_ID w.
Definition VERIFY_TOKEN : value := env_value (WHATSAPP_VERIFY_TOKEN w).

Definition messages_url : jsstring :=
  str "https://graph.facebook.com/v17.0/" ++ env_text PHONE_ID ++ str "/messages".
Definition bearer : jsstring := str "Bearer " ++ env_text TOKEN.

(** The template literal [prompt] of [parseOrderAI], with the text of
    the message in place. *)
Definition prompt (m : jsstring) : jsstring :=
  newline ++ str "Extract order items from this message." ++ newline
  ++ str "Return JSON only." ++ newline
  ++ newline
  ++ str "Message: " ++ quote ++ m ++ quote ++ newline
  ++ newline
  ++ str "Example output:" ++ newline
  ++ str "{" ++ quote ++ str "product" ++ quote ++ str ":"
  ++ quote ++ str "sugar" ++ quote ++ str ","
  ++ quote ++ str "quantity" ++ quote ++ str ":1,"
  ++ quote ++ str "unit" ++ quote ++ str ":"
  ++ quote ++ str "kg" ++ quote ++ str "}" ++ newline
  ++ str "    ".

(** [parseOrderAI(message)] (lines 34-54). *)
Definition parseOrderAI (message : value) : M value :=
  try_catch
    (m <- lift (ToString w message) ;;
     text <- perform (GenerateContent (prompt m)) (generateContent_text w (prompt m)) ;;
     lift (JSON_parse w text))
    (fun _ => ret VNull).

(** [sendWhatsapp(to, text)] (lines 57-69). *)
Definition sendWhatsapp (to : value) (text : jsstring) : M unit :=
  let data :=
    VObject [ (str "messaging_product", VString (str "whatsapp"));
              (str "to", to);
              (str "text", VObject [(str "body", VString text)]) ] in
  perform (AxiosPost messages_url data bearer) (axios_post w messages_url data bearer).

(** [generateInvoice(order, fileName)] (lines 72-89).  The executor of the
    promise opens the file and writes the text lines; a template literal
    that throws rejects the promise.  [resolve(path)] is called only from
    the [finish] listener of the document (line 87): when the document
    emits no [finish], the promise never settles. *)
Definition generateInvoice (o : order) (fileName : jsstring) : M jsstring :=
  fun t =>
    let path := str "./" ++ fileName in
    let t' := t ++ [GenerateInvoice o fileName] in
    match invoice_text w o with
    | (_, Some e) => (Throw e, t')
    | (_, None) => if pdf_emits_finish w then (Normal path, t') else (Pending, t')
    end.

(** GET /webhook/whatsapp (lines 92-112). *)
Definition verify (q : query) : response :=
  let mode := hub_mode q in
  let token := hub_verify_token q in
  let challenge := hub_challenge q in
  if truthy mode && truthy token then
    if strict_equals mode (VString (str "subscribe")) && strict_equals token VERIFY_TOKEN
    then send 200 challenge
    else sendStatus 403
  else sendStatus 400.

(** The test of the [if] of the POST handler:
    [data.entry && data.entry[0].changes &&
     data.entry[0].changes[0].value.messages]. *)
Definition messages_guard (data : value) : completion value :=
  cbind (get data (str "entry")) (fun entry =>
  if negb (truthy entry) then Normal entry else
  cbind (get_index0 entry) (fun entry0 =>
  cbind (get entry0 (str "changes")) (fun changes =>
  if negb (truthy changes) then Normal changes else
  cbind (get_index0 changes) (fun change0 =>
  cbind (get change0 (str "value")) (fun val =>
  get val (str "messages")))))).

(** [data.entry[0].changes[0].value.messages[0]]. *)
Definition first_message (data : value) : completion value :=
  cbind (get data (str "entry")) (fun entry =>
  cbind (get_index0 entry) (fun entry0 =>
  cbind (get entry0 (str "changes")) (fun changes =>
  cbind (get_index0 changes) (fun change0 =>
  cbind (get change0 (str "value")) (fun val =>
  cbind (get val (str "messages")) get_index0))))).

(** [msg.text?.body || ""]. *)
Definition message_text (msg : value) : completion value :=
  cbind (get msg (str "text")) (fun text =>
  cbind (match text with
         | VUndefined | VNull => Normal VUndefined
         | _ => get text (str "body")
         end) (fun body =>
  Normal (if truthy body then body else VString []))).

(** The pricing block of the POST handler (lines 137-149): the catalog
    read, its test, and the [order] literal.  [None] is the branch that
    answers [Product not found.]. *)
Definition priceOrder (parsed : value) : completion (option order) :=
  cbind (get parsed (str "product")) (fun name =>
  cbind (call_toLowerCase name) (fun key =>
  let product := get_object PRODUCTS key in
  if negb (truthy product) then Normal None else
  cbind (get parsed (str "product")) (fun o_product =>
  cbind (get parsed (str "quantity")) (fun o_quantity =>
  cbind (get parsed (str "unit")) (fun o_unit =>
  cbind (get product (str "price")) (fun o_price =>
  cbind (multiply w o_price o_quantity) (fun o_total =>
  Normal (Some {| product := o_product;
                  quantity := o_quantity;
                  unit_ := o_unit;
                  price := o_price;
                  total := o_total |})))))))).

(** The confirmation (line 155): a text message. *)
Definition deliver (from : value) (o : order) (fileName : jsstring) : M unit :=
  (p <- lift (ToString w (product o)) ;;
   sendWhatsapp from
     (str "Order confirmed!" ++ newline ++ newline
      ++ str "Product: " ++ p ++ newline
      ++ str "Total: " ++ rupee ++ NumberToString w (total o))).

(** POST /webhook/whatsapp (lines 115-165). *)
Definition webhook (data : value) : M response :=
  try_catch
    (guard <- lift (messages_guard data) ;;
     if truthy guard then
       (msg <- lift (first_message data) ;;
        from <- lift (get msg (str "from")) ;;
        text <- lift (message_text msg) ;;
        parsed <- parseOrderAI text ;;
        if negb (truthy parsed) then
          (sendWhatsapp from (str "Sorry, I couldn't understand the order.") ;;;
           ret (sendStatus 200))
        else
          (priced <- lift (priceOrder parsed) ;;
           match priced with
           | None =>
               (sendWhatsapp from (str "Product not found.") ;;;
                ret (sendStatus 200))
           | Some o =>
               let fileName := str "invoice-" ++ decimal (Date_now w) ++ str ".pdf" in
               (generateInvoice o fileName ;;;
                deliver from o fileName ;;;
                ret (sendStatus 200))
           end))
     else ret (sendStatus 200))
    (fun _ => ret (sendStatus 500)).
End Handlers.

End V1.

(** ** The second copy (lines 172-339) *)

Module V2.

(** [PRODUCTS] (lines 194-198), an object literal. *)
Definition PRODUCTS : list (jsstring * value) :=
  [ (str "sugar", VObject [(str "price", VNumber 40%float)]);
    (str "oil", VObject [(str "price", VNumber 120%float)]);
    (str "rice", VObject [(str "price", VNumber 60%float)]) ].

Section Handlers.
Variable w : world.

Definition TOKEN : option jsstring := WHATSAPP_TOKEN w.
Definition PHONE_ID : option jsstring := WHATSAPP_PHONE_ID w.
Definition VERIFY_TOKEN : value := env_value (WHATSAPP_VERIFY_TOKEN w).

Definition messages_url : jsstring :=
  str "https://graph.facebook.com/v17.0/" ++ env_text PHONE_ID ++ str "/messages".
Definition bearer : jsstring := str "Bearer " ++ env_text TOKEN.

(** The template literal [prompt] of [parseOrderAI], with the text of
    the message in place. *)
Definition prompt (m : jsstring) : jsstring :=
  newline ++ str "Extract order items from this message." ++ newline
  ++ str "Return JSON only." ++ newline
  ++ newline
  ++ str "Message: " ++ quote ++ m ++ quote ++ newline
  ++ newline
  ++ str "Example output:" ++ newline
  ++ str "{" ++ quote ++ str "product" ++ quote ++ str ":"
  ++ quote ++ str "sugar" ++ quote ++ str ","
  ++ quote ++ str "quantity" ++ quote ++ str ":1,"
  ++ quote ++ str "unit" ++ quote ++ str ":"
  ++ quote ++ str "kg" ++ quote ++ str "}" ++ newline
  ++ str "    ".

(** [parseOrderAI(message)] (lines 201-221). *)
Definition parseOrderAI (message : value) : M value :=
  try_catch
    (m <- lift (ToString w message) ;;
     text <- perform (GenerateContent (prompt m)) (generateContent_text w (prompt m)) ;;
     lift (JSON_parse w text))
    (fun _ => ret VNull).

(** [sendWhatsapp(to, text)] (lines 224-236). *)
Definition sendWhatsapp (to : value) (text : jsstring) : M unit :=
  let data :=
    VObject [ (str "messaging_product", VString (str "whatsapp"));
              (str "to", to);
              (str "text", VObject [(str "body", VString text)]) ] in
  perform (AxiosPost messages_url data bearer) (axios_post w messages_url data bearer).

(** [generateInvoice(order, fileName)] (lines 239-256).  The executor of the
    promise opens the file and writes the text lines; a template literal
    that throws rejects the promise.  [resolve(path)] is called only from
    the [finish] listener of the document (line 254): when the document
    emits no [finish], the promise never settles. *)
Definition generateInvoice (o : order) (fileName : jsstring) : M jsstring :=
  fun t =>
    let path := str "./" ++ fileName in
    let t' := t ++ [GenerateInvoice o fileName] in
    match invoice_text w o with
    | (_, Some e) => (Throw e, t')
    | (_, None) => if pdf_emits_finish w then (Normal path, t') else (Pending, t')
    end.

(** GET /webhook/whatsapp (lines 259-268). *)
Definition verify (q : query) : response :=
  let mode := hub_mode q in
  let token := hub_verify_token q in
  let challenge := hub_challenge q in
  if strict_equals mode (VString (str "subscribe")) && strict_equals token VERIFY_TOKEN
  then send 200 challenge
  else sendStatus 403.

(** The test of the [if] of the POST handler:
    [data.entry && data.entry[0].changes &&
     data.entry[0].changes[0].value.messages]. *)
Definition messages_guard (data : value) : completion value :=
  cbind (get data (str "entry")) (fun entry =>
  if negb (truthy entry) then Normal entry else
  cbind (get_index0 entry) (fun entry0 =>
  cbind (get entry0 (str "changes")) (fun changes =>
  if negb (truthy changes) then Normal changes else
  cbind (get_index0 changes) (fun change0 =>
  cbind (get change0 (str "value")) (fun val =>
  get val (str "messages")))))).

(** [data.entry[0].changes[0].value.messages[0]]. *)
Definition first_message (data : value) : completion value :=
  cbind (get data (str "entry")) (fun entry =>
  cbind (get_index0 entry) (fun entry0 =>
  cbind (get entry0 (str "changes")) (fun changes =>
  cbind (get_index0 changes) (fun change0 =>
  cbind (get change0 (str "value")) (fun val =>
  cbind (get val (str "messages")) get_index0))))).

(** [msg.text?.body || ""]. *)
Definition message_text (msg : value) : completion value :=
  cbind (get msg (str "text")) (fun text =>
  cbind (match text with
         | VUndefined | VNull => Normal VUndefined
         | _ => get text (str "body")
         end) (fun body =>
  Normal (if truthy body then body else VString []))).

(** The pricing block of the POST handler (lines 292-304): the catalog
    read, its test, and the [order] literal.  [None] is the branch that
    answers [Product not found.]. *)
Definition priceOrder (parsed : value) : completion (option order) :=
  cbind (get parsed (str "product")) (fun name =>
  cbind (call_toLowerCase name) (fun key =>
  let product := get_object PRODUCTS key in
  if negb (truthy product) then Normal None else
  cbind (get parsed (str "product")) (fun o_product =>
  cbind (get parsed (str "quantity")) (fun o_quantity =>
  cbind (get parsed (str "unit")) (fun o_unit =>
  cbind (get product (str "price")) (fun o_price =>
  cbind (multiply w o_price o_quantity) (fun o_total =>
  Normal (Some {| product := o_product;
                  quantity := o_quantity;
                  unit_ := o_unit;
                  price := o_price;
                  total := o_total |})))))))).

(** The confirmation (lines 310-323): a document message with the link
    of the invoice. *)
Definition deliver (from : value) (o : order) (fileName : jsstring) : M unit :=
  let data :=
    VObject [ (str "messaging_product", VString (str "whatsapp"));
              (str "to", from);
              (str "type", VString (str "document"));
              (str "document",
               VObject [ (str "link", VString (str "https://yourdomain.com/" ++ fileName));
                         (str "caption", VString (str "Your Invoice")) ]) ] in
  perform (AxiosPost messages_url data bearer) (axios_post w messages_url data bearer).

(** POST /webhook/whatsapp (lines 271-333). *)
Definition webhook (data : value) : M response :=
  try_catch
    (guard <- lift (messages_guard data) ;;
     if truthy guard then
       (msg <- lift (first_message data) ;;
        from <- lift (get msg (str "from")) ;;
        text <- lift (message_text msg) ;;
        parsed <- parseOrderAI text ;;
        if negb (truthy parsed) then
          (sendWhatsapp from (str "Sorry, I couldn't understand the order.") ;;;
           ret (sendStatus 200))
        else
          (priced <- lift (priceOrder parsed) ;;
           match priced with
           | None =>
               (sendWhatsapp from (str "Product not found.") ;;;
                ret (sendStatus 200))
           | Some o =>
               let fileName := str "invoice-" ++ decimal (Date_now w) ++ str ".pdf" in
               (generateInvoice o fileName ;;;
                deliver from o fileName ;;;
                ret (sendStatus 200))
           end))
     else ret (sendStatus 200))
    (fun _ => ret (sendStatus 500)).
End Handlers.

End V2.

(** ** The vocabulary of the specification *)

(** The terminal states of the Pricing Engine.  The handlers have the two
    branches [ProductNotFound] and [Priced]; [InvalidQuantity] is the third
    state the specification names. *)
Inductive terminal : Type :=
| ProductNotFound
| InvalidQuantity
| Priced (o : order).

Definition terminal_of (r : option order) : terminal :=
  match r with
  | None => ProductNotFound
  | Some o => Priced o
  end.

Definition pricing_state (w : world) (parsed : value) : completion terminal :=
  cbind (V1.priceOrder w parsed) (fun r => Normal (terminal_of r)).

(** A quantity the specification calls valid: a finite number above zero. *)
Definition valid_quantity (q : value) : bool :=
  match q with
  | VNumber n => PrimFloat.is_finite n && (0 <? n)%float
  | _ => false
  end.

(** A Catalog Entry: an own property of [PRODUCTS], with its price. *)
Definition catalog_entry (key : jsstring) (p : float) : Prop :=
  own_property V1.PRODUCTS key = Some (VObject [(str "price", VNumber p)]).

(** The catalog read of line 137, for a product name. *)
Definition lookup (name : jsstring) : value :=
  get_object V1.PRODUCTS (toLowerCase name).

(** The outcome [ExtractionFailed], as the handler tests it: [!parsed]. *)
Definition ExtractionFailed (parsed : value) : bool := negb (truthy parsed).

(** The shape [{product, quantity, unit}] of a Candidate Order. *)
Definition well_formed_candidate (parsed : value) : bool :=
  match parsed with
  | VObject props =>
      match own_property props (str "product"),
            own_property props (str "quantity"),
            own_property props (str "unit") with
      | Some (VString _), Some (VNumber _), Some (VString _) => true
      | _, _, _ => false
      end
  | _ => false
  end.

(** ** Examples: requests and worlds *)

(** The Candidate Order [{"product": name, "quantity": q, "unit": u}]. *)
Definition candidate (name : jsstring) (q : value) (u : jsstring) : value :=
  VObject [ (str "product", VString name);
            (str "quantity", q);
            (str "unit", VString u) ].

(** A text message, and a delivery of the messaging platform that carries
    it. *)
Definition message (from text : jsstring) : value :=
  VObject [ (str "from", VString from);
            (str "text", VObject [(str "body", VString text)]) ].

Definition delivery (from text : jsstring) : value :=
  VObject [ (str "entry", VArray [
    VObject [ (str "changes", VArray [
      VObject [ (str "value", VObject [
        (str "messages", VArray [message from text]) ]) ] ]) ] ]) ].

(** [Number::toString] at the numbers the examples print (NaN, 80, 120 and
    -120); the examples look nowhere else. *)
Definition example_NumberToString (n : float) : jsstring :=
  if PrimFloat.is_nan n then str "NaN"
  else if (n =? 80)%float then str "80"
  else if (n =? 120)%float then str "120"
  else if (n =? -120)%float then str "-120"
  else [].

(** A world in which the model answers [reply] to every prompt,
    [JSON.parse] is known at that one text, no string is read as a number,
    every post succeeds, and the PDF document is pdfkit's. *)
Definition world_answering (reply : jsstring) (parsed : completion value) : world :=
  {| WHATSAPP_TOKEN := Some (str "token");
     WHATSAPP_PHONE_ID := Some (str "1555");
     WHATSAPP_VERIFY_TOKEN := Some (str "secret");
     generateContent_text := fun _ => Normal reply;
     JSON_parse := fun t => if jsstring_eqb t reply then parsed else Throw SyntaxError;
     StringToNumber := fun _ => PrimFloat.nan;
     NumberToString := example_NumberToString;
     Date_now := 1700000000000;
     axios_post := fun _ _ _ => Normal tt;
     pdf_emits_finish := false |}.

(** A world in which the generative model cannot be reached. *)
Definition world_unreachable : world :=
  {| WHATSAPP_TOKEN := Some (str "token");
     WHATSAPP_PHONE_ID := Some (str "1555");
     WHATSAPP_VERIFY_TOKEN := Some (str "secret");
     generateContent_text := fun _ => Throw (Failure (str "fetch failed"));
     JSON_parse := fun _ => Throw SyntaxError;
     StringToNumber := fun _ => PrimFloat.nan;
     NumberToString := example_NumberToString;
     Date_now := 1700000000000;
     axios_post := fun _ _ _ => Normal tt;
     pdf_emits_finish := false |}.

Definition world_plain : world := world_answering (str "null") (Normal VNull).

(** The world [w] with another [WHATSAPP_VERIFY_TOKEN]. *)
Definition with_secret (secret : option jsstring) (w : world) : world :=
  {| WHATSAPP_TOKEN := WHATSAPP_TOKEN w;
     WHATSAPP_PHONE_ID := WHATSAPP_PHONE_ID w;
     WHATSAPP_VERIFY_TOKEN := secret;
     generateContent_text := generateContent_text w;
     JSON_parse := JSON_parse w;
     StringToNumber := StringToNumber w;
     NumberToString := NumberToString w;
     Date_now := Date_now w;
     axios_post := axios_post w;
     pdf_emits_finish := pdf_emits_finish w |}.

(** The text [{"quantity":2}] and what [JSON.parse] makes of it. *)
Definition quantity_only_text : jsstring :=
  str "{" ++ quote ++ str "quantity" ++ quote ++ str ":2}".
Definition quantity_only : value := VObject [(str "quantity", VNumber 2%float)].

(** [sugar] written with U+017F, the long s. *)
Definition long_s_sugar : jsstring := 383 :: str "ugar".

(** How a handler ends after the confirmation: [return res.sendStatus(200)],
    or the [catch] block when the delivery threw. *)
Definition finish (r : run unit * list effect) : run response * list effect :=
  match r with
  | (Settled (Normal _), t) => (Normal (sendStatus 200), t)
  | (Settled (Throw _), t) => (Normal (sendStatus 500), t)
  | (Pending, t) => (Pending, t)
  end.

(** The extractor's output has a string in its [product] field. *)
Definition string_product (parsed : value) : bool :=
  match get parsed (str "product") with
  | Normal (VString _) => true
  | _ => false
  end.

(** A verification request with no query parameter at all. *)
Definition no_query : query :=
  {| hub_mode := VUndefined; hub_verify_token := VUndefined; hub_challenge := VUndefined |}.

(** The verification request [?hub.mode=subscribe&hub.verify_token=t&hub.challenge=c]. *)
Definition subscribe_query (t c : jsstring) : query :=
  {| hub_mode := VString (str "subscribe");
     hub_verify_token := VString t;
     hub_challenge := VString c |}.

(** The delivery [{"entry": []}]. *)
Definition empty_entry : value := VObject [(str "entry", VArray [])].

(** The JSON text [{"product":name,"quantity":q,"unit":u}]. *)
Definition candidate_text (name q u : jsstring) : jsstring :=
  str "{" ++ quote ++ str "product" ++ quote ++ str ":" ++ quote ++ name ++ quote
  ++ str "," ++ quote ++ str "quantity" ++ quote ++ str ":" ++ q
  ++ str "," ++ quote ++ str "unit" ++ quote ++ str ":" ++ quote ++ u ++ quote
  ++ str "}".

(** A world in which the model reads [1 kg constructor] as an order of the
    product [constructor]. *)
Definition world_constructor : world :=
  world_answering (candidate_text (str "constructor") (str "1") (str "kg"))
                  (Normal (candidate (str "constructor") (VNumber 1%float) (str "kg"))).

(** ** Further vocabulary: payloads and call sequences *)

(** The request body of [sendWhatsapp(to, text)] (lines 60-64). *)
Definition text_message (to : value) (text : jsstring) : value :=
  VObject [ (str "messaging_product", VString (str "whatsapp"));
            (str "to", to);
            (str "text", VObject [(str "body", VString text)]) ].

(** The request body of the document message of the second copy (lines
    314-322), for the invoice [fileName]. *)
Definition document_message (to : value) (fileName : jsstring) : value :=
  VObject [ (str "messaging_product", VString (str "whatsapp"));
            (str "to", to);
            (str "type", VString (str "document"));
            (str "document",
             VObject [ (str "link", VString (str "https://yourdomain.com/" ++ fileName));
                       (str "caption", VString (str "Your Invoice")) ]) ].

(** The file name [`invoice-${Date.now()}.pdf`] (lines 151 and 306). *)
Definition invoice_name (w : world) : jsstring :=
  str "invoice-" ++ decimal (Date_now w) ++ str ".pdf".

(** The text of the confirmation of the first copy (line 155), for a
    product name and a total. *)
Definition confirmation_text (w : world) (name : jsstring) (sum : float) : jsstring :=
  str "Order confirmed!" ++ newline ++ newline
  ++ str "Product: " ++ name ++ newline
  ++ str "Total: " ++ rupee ++ NumberToString w sum.

(** The sequences of calls one run of the POST handler can make: at most
    one call to the model, then at most one invoice, then at most one post
    to the Graph API. *)
Definition call_shape (calls : list effect) : bool :=
  match calls with
  | [] => true
  | [GenerateContent _] => true
  | [AxiosPost _ _ _] => true
  | [GenerateContent _; AxiosPost _ _ _] => true
  | [GenerateContent _; GenerateInvoice _ _] => true
  | [GenerateContent _; GenerateInvoice _ _; AxiosPost _ _ _] => true
  | _ => false
  end.

(** A post goes to the messages endpoint of the configured phone, with the
    configured bearer token, and is addressed to the sender of the first
    message of the delivery. *)
Definition post_to_sender (w : world) (data : value) (e : effect) : Prop :=
  match e with
  | AxiosPost url body authorization =>
      url = V1.messages_url w /\
      authorization = V1.bearer w /\
      exists msg to,
        V1.first_message data = Normal msg /\
        get msg (str "from") = Normal to /\
        get body (str "to") = Normal to
  | _ => True
  end.

(** The product names of Basic Latin the catalog read answers with
    something truthy: the three entries, and the two inherited property
    names without a capital letter. *)
Definition priced_keys : list jsstring :=
  [str "sugar"; str "oil"; str "rice"; str "constructor"; str "__proto__"].

Definition is_capital (c : N) : bool := (65 <=? c) && (c <=? 90).

(** * Properties *)

(** ** The runtime fragment *)

Lemma jsstring_eqb_refl (s : jsstring) : jsstring_eqb s s = true.
Proof.
  induction s as [|c s IH]; simpl; [reflexivity|].
  now rewrite N.eqb_refl, IH.
Qed.

Lemma jsstring_eqb_eq (a b : jsstring) : jsstring_eqb a b = true <-> a = b.
Proof.
  split.
  - revert b; induction a as [|x a IH]; intros [|y b]; simpl; try discriminate; auto.
    intros H. apply andb_true_iff in H as [Hxy Hab].
    apply N.eqb_eq in Hxy. f_equal; auto.
  - intros ->. apply jsstring_eqb_refl.
Qed.

(** A read that succeeds tells that the receiver is not [undefined] or
    [null]: every other read of it succeeds too. *)
Lemma get_defined (v : value) (k : jsstring) (x : value) :
  get v k = Normal x -> forall k', exists y, get v k' = Normal y.
Proof.
  destruct v; simpl; intros H k'; try discriminate; eauto.
Qed.

Lemma truthy_get (v : value) (k : jsstring) :
  truthy v = true -> exists y, get v k = Normal y.
Proof.
  destruct v; simpl; intros H; try discriminate; eauto.
Qed.

(** ** Pricing *)

Section Pricing.
Variable w : world.

(** The price of a Catalog Entry is read back from the entry. *)
Lemma catalog_entry_found (key : jsstring) (p : float) :
  catalog_entry key p ->
  get_object V1.PRODUCTS key = VObject [(str "price", VNumber p)].
Proof.
  unfold catalog_entry, get_object. now intros ->.
Qed.

(** The pricing block on a matched product: the order literal with the
    entry's price and the product of the two numbers. *)
Lemma priceOrder_matched (parsed q : value) (name : jsstring) (p n : float) :
  get parsed (str "product") = Normal (VString name) ->
  catalog_entry (toLowerCase name) p ->
  get parsed (str "quantity") = Normal q ->
  ToNumber w q = Normal n ->
  exists u,
    get parsed (str "unit") = Normal u /\
    V1.priceOrder w parsed =
      Normal (Some {| product := VString name; quantity := q; unit_ := u;
                      price := VNumber p; total := (p * n)%float |}).
Proof.
  intros Hname Hentry Hq Hn.
  destruct (get_defined _ _ _ Hname (str "unit")) as [u Hu].
  exists u. split; [exact Hu|].
  unfold V1.priceOrder. rewrite Hname. simpl.
  rewrite (catalog_entry_found _ _ Hentry). simpl.
  rewrite Hq. simpl. rewrite Hu. simpl.
  unfold multiply. simpl. rewrite Hn. reflexivity.
Qed.

(** The pricing block on a name the catalog read gives nothing for. *)
Lemma priceOrder_unmatched (parsed : value) (name : jsstring) :
  get parsed (str "product") = Normal (VString name) ->
  truthy (lookup name) = false ->
  V1.priceOrder w parsed = Normal None.
Proof.
  intros Hname Hfalsy. unfold V1.priceOrder. rewrite Hname. simpl.
  unfold lookup in Hfalsy. now rewrite Hfalsy.
Qed.

(** C8: with sugar at 40 in the catalog, the Candidate Order
    [{product: "sugar", quantity: 2, unit: "kg"}] is priced to the order
    with unit price 40 and total 80. *)
Theorem sugar_2_kg_is_80 :
  pricing_state w (candidate (str "sugar") (VNumber 2%float) (str "kg")) =
  Normal (Priced {| product := VString (str "sugar");
                    quantity := VNumber 2%float;
                    unit_ := VString (str "kg");
                    price := VNumber 40%float;
                    total := 80%float |}).
Proof. reflexivity. Qed.

(** C2: for a Candidate Order whose product name matches a Catalog Entry
    case-insensitively and whose quantity is a finite number above zero,
    the Priced Order carries the entry's price and
    [total = unitPrice * quantity], the binary64 product. *)
Theorem total_is_price_times_quantity (parsed : value) (name : jsstring) (p q : float) :
  get parsed (str "product") = Normal (VString name) ->
  catalog_entry (toLowerCase name) p ->
  get parsed (str "quantity") = Normal (VNumber q) ->
  valid_quantity (VNumber q) = true ->
  exists u,
    get parsed (str "unit") = Normal u /\
    pricing_state w parsed =
      Normal (Priced {| product := VString name; quantity := VNumber q; unit_ := u;
                        price := VNumber p; total := (p * q)%float |}).
Proof.
  intros Hname Hentry Hq _.
  destruct (priceOrder_matched parsed (VNumber q) name p q Hname Hentry Hq eq_refl)
    as [u [Hu Hprice]].
  exists u. split; [exact Hu|].
  unfold pricing_state. now rewrite Hprice.
Qed.

(** C1, as the handler has it: there is no test of the quantity and no
    outcome [InvalidQuantity].  For a Candidate Order whose quantity is not
    a finite number above zero (missing, not a number, not finite, zero,
    negative), the outcome is decided by the product name alone:
    [ProductNotFound] when the catalog read gives nothing, and, when the
    name matches an entry, a Priced Order with
    [total = unitPrice * ToNumber(quantity)] (or the fault of that
    conversion, which only an array or object quantity can raise). *)
Theorem invalid_quantity_is_not_checked (parsed q : value) (name : jsstring) :
  get parsed (str "product") = Normal (VString name) ->
  get parsed (str "quantity") = Normal q ->
  valid_quantity q = false ->
  (truthy (lookup name) = false -> pricing_state w parsed = Normal ProductNotFound) /\
  (forall p,
      catalog_entry (toLowerCase name) p ->
      match ToNumber w q with
      | Normal n =>
          exists u,
            pricing_state w parsed =
              Normal (Priced {| product := VString name; quantity := q; unit_ := u;
                                price := VNumber p; total := (p * n)%float |})
      | Throw e => pricing_state w parsed = Throw e
      end).
Proof.
  intros Hname Hq _. split.
  - intros Hfalsy. unfold pricing_state.
    now rewrite (priceOrder_unmatched parsed name Hname Hfalsy).
  - intros p Hentry. destruct (ToNumber w q) as [n|e] eqn:Hn.
    + destruct (priceOrder_matched parsed q name p n Hname Hentry Hq Hn) as [u [_ Hprice]].
      exists u. unfold pricing_state. now rewrite Hprice.
    + destruct (get_defined _ _ _ Hname (str "unit")) as [u Hu].
      unfold pricing_state, V1.priceOrder. rewrite Hname. simpl.
      rewrite (catalog_entry_found _ _ Hentry). simpl.
      rewrite Hq. simpl. rewrite Hu. simpl.
      unfold multiply. simpl. now rewrite Hn.
Qed.

(** A quantity that is not an array or an object converts without a
    fault. *)
Lemma ToNumber_primitive (q : value) :
  match q with VArray _ | VObject _ => False | _ => True end ->
  exists n, ToNumber w q = Normal n.
Proof.
  destruct q; simpl; intros H; try contradiction; eauto.
Qed.

End Pricing.

Lemma total_is_price_times_quantity_witness :
  exists u,
    get (candidate (str "Sugar") (VNumber 2%float) (str "kg")) (str "unit") = Normal u /\
    pricing_state world_plain (candidate (str "Sugar") (VNumber 2%float) (str "kg")) =
      Normal (Priced {| product := VString (str "Sugar"); quantity := VNumber 2%float;
                        unit_ := u; price := VNumber 40%float;
                        total := (40 * 2)%float |}).
Proof.
  apply (total_is_price_times_quantity world_plain
           (candidate (str "Sugar") (VNumber 2%float) (str "kg")) (str "Sugar")
           40%float 2%float); reflexivity.
Defined.

(** C1, the claim as stated, at quantity -3 for sugar: the quantity is not
    valid, and the outcome is a Priced Order with total -120, not
    [InvalidQuantity]. *)
Lemma negative_quantity_is_priced :
  valid_quantity (VNumber (-3)%float) = false /\
  pricing_state world_plain (candidate (str "sugar") (VNumber (-3)%float) (str "kg")) =
    Normal (Priced {| product := VString (str "sugar");
                      quantity := VNumber (-3)%float;
                      unit_ := VString (str "kg");
                      price := VNumber 40%float;
                      total := (-120)%float |}) /\
  pricing_state world_plain (candidate (str "sugar") (VNumber (-3)%float) (str "kg")) <>
    Normal InvalidQuantity.
Proof.
  split; [reflexivity|]. split; [reflexivity|].
  intros H. vm_compute in H. discriminate H.
Qed.

Lemma invalid_quantity_is_not_checked_witness :
  exists u,
    pricing_state world_plain (candidate (str "sugar") (VNumber (-3)%float) (str "kg")) =
      Normal (Priced {| product := VString (str "sugar"); quantity := VNumber (-3)%float;
                        unit_ := u; price := VNumber 40%float;
                        total := (40 * -3)%float |}).
Proof.
  apply (proj2 (invalid_quantity_is_not_checked world_plain
                  (candidate (str "sugar") (VNumber (-3)%float) (str "kg"))
                  (VNumber (-3)%float) (str "sugar") eq_refl eq_refl eq_refl)
           40%float).
  reflexivity.
Defined.

(** The other scenarios of the specification: oil, and a product that is
    not in the catalog. *)
Example oil_1_liter_is_120 :
  pricing_state world_plain (candidate (str "oil") (VNumber 1%float) (str "liter")) =
    Normal (Priced {| product := VString (str "oil"); quantity := VNumber 1%float;
                      unit_ := VString (str "liter"); price := VNumber 120%float;
                      total := 120%float |}).
Proof. reflexivity. Qed.

Example flour_is_not_found :
  pricing_state world_plain (candidate (str "flour") (VNumber 1%float) (str "kg")) =
    Normal ProductNotFound.
Proof. reflexivity. Qed.

(** A quantity that does not convert to a number, the object
    [{"toString": 1}]: the multiplication of line 148 throws, and no order
    is built. *)
Example object_quantity_throws :
  valid_quantity (VObject [(str "toString", VNumber 1%float)]) = false /\
  pricing_state world_plain
    (candidate (str "sugar") (VObject [(str "toString", VNumber 1%float)]) (str "kg")) =
    Throw TypeError.
Proof. split; reflexivity. Qed.

(** A missing quantity: the total is [NaN]. *)
Example missing_quantity_total_is_NaN :
  pricing_state world_plain (VObject [(str "product", VString (str "oil"))]) =
    Normal (Priced {| product := VString (str "oil"); quantity := VUndefined;
                      unit_ := VUndefined; price := VNumber 120%float;
                      total := PrimFloat.nan |}).
Proof. reflexivity. Qed.

(** ** Catalog lookup and letter case *)

Section LetterCase.

Ltac split_tests :=
  repeat (match goal with
          | |- context [N.leb ?a ?b] => destruct (N.leb_spec a b)
          | |- context [N.eqb ?a ?b] => destruct (N.eqb_spec a b)
          end; simpl in *; try lia).

Lemma lower_unit_ascii (c : N) :
  is_ascii c = true ->
  lower_unit c = [if (65 <=? c) && (c <=? 90) then c + 32 else c].
Proof.
  unfold is_ascii, lower_unit. intros H. apply N.ltb_lt in H.
  split_tests; reflexivity.
Qed.

Lemma upper_unit_ascii (c : N) :
  is_ascii c = true ->
  upper_unit c = [if (97 <=? c) && (c <=? 122) then c - 32 else c].
Proof.
  unfold is_ascii, upper_unit. intros H. apply N.ltb_lt in H.
  split_tests; reflexivity.
Qed.

Lemma lower_lower_unit (c : N) :
  is_ascii c = true -> toLowerCase (lower_unit c) = lower_unit c.
Proof.
  intros H. rewrite (lower_unit_ascii c H).
  unfold toLowerCase, lower_unit, is_ascii in *. apply N.ltb_lt in H. simpl.
  split_tests; reflexivity.
Qed.

Lemma lower_upper_unit (c : N) :
  is_ascii c = true -> toLowerCase (upper_unit c) = lower_unit c.
Proof.
  intros H. rewrite (upper_unit_ascii c H).
  unfold toLowerCase, lower_unit, is_ascii in *. apply N.ltb_lt in H. simpl.
  split_tests; try reflexivity; f_equal; lia.
Qed.

Lemma toLowerCase_app (a b : jsstring) :
  toLowerCase (a ++ b) = toLowerCase a ++ toLowerCase b.
Proof. apply flat_map_app. Qed.

Lemma toLowerCase_idempotent (s : jsstring) :
  forallb is_ascii s = true -> toLowerCase (toLowerCase s) = toLowerCase s.
Proof.
  induction s as [|c s IH]; simpl; [reflexivity|].
  intros H. apply andb_true_iff in H as [Hc Hs].
  change (toLowerCase (lower_unit c ++ toLowerCase s) = lower_unit c ++ toLowerCase s).
  now rewrite toLowerCase_app, lower_lower_unit, IH.
Qed.

Lemma toLowerCase_toUpperCase (s : jsstring) :
  forallb is_ascii s = true -> toLowerCase (toUpperCase s) = toLowerCase s.
Proof.
  induction s as [|c s IH]; simpl; [reflexivity|].
  intros H. apply andb_true_iff in H as [Hc Hs].
  change (toLowerCase (upper_unit c ++ toUpperCase s) = lower_unit c ++ toLowerCase s).
  now rewrite toLowerCase_app, lower_upper_unit, IH.
Qed.

(** C4, for Basic Latin: for every string of ASCII characters, the catalog
    read of the string, of the string lowercased and of the string
    uppercased give the same entry. *)
Theorem lookup_ignores_ascii_case (s : jsstring) :
  forallb is_ascii s = true ->
  lookup (toLowerCase s) = lookup s /\ lookup (toUpperCase s) = lookup s.
Proof.
  intros H. unfold lookup.
  now rewrite toLowerCase_idempotent, toLowerCase_toUpperCase.
Qed.

End LetterCase.

Lemma lookup_ignores_ascii_case_witness :
  lookup (toLowerCase (str "Sugar")) = lookup (str "Sugar") /\
  lookup (toUpperCase (str "Sugar")) = lookup (str "Sugar").
Proof.
  apply (lookup_ignores_ascii_case (str "Sugar")). reflexivity.
Defined.

(** The three spellings of the specification resolve to the entry at 40. *)
Example sugar_in_three_cases :
  lookup (str "Sugar") = VObject [(str "price", VNumber 40%float)] /\
  lookup (str "sugar") = lookup (str "Sugar") /\
  lookup (str "SUGAR") = lookup (str "Sugar").
Proof. repeat split; reflexivity. Qed.

(** C4, the claim as stated, at the string [sugar] written with the long s
    (U+017F): lowercasing leaves it as it is and the catalog read finds
    nothing, uppercasing gives [SUGAR] and the catalog read finds sugar. *)
Lemma long_s_breaks_case_invariance :
  toLowerCase long_s_sugar = long_s_sugar /\
  toUpperCase long_s_sugar = str "SUGAR" /\
  lookup long_s_sugar = VUndefined /\
  lookup (toUpperCase long_s_sugar) = VObject [(str "price", VNumber 40%float)].
Proof. repeat split; reflexivity. Qed.

(** ** The order extractor *)

Section Extractor.
Variable w : world.

(** One run of [parseOrderAI] on a string: the model is called once, and
    the result is what [JSON.parse] makes of its text, or [null]. *)
Lemma parseOrderAI_run (s : jsstring) (t : list effect) :
  V1.parseOrderAI w (VString s) t =
    (Normal match generateContent_text w (V1.prompt s) with
            | Throw _ => VNull
            | Normal text =>
                match JSON_parse w text with
                | Throw _ => VNull
                | Normal v => v
                end
            end,
     t ++ [GenerateContent (V1.prompt s)]).
Proof.
  unfold V1.parseOrderAI, try_catch, bind, lift, perform, ret. simpl.
  destruct (generateContent_text w (V1.prompt s)) as [text|e]; [|reflexivity].
  destruct (JSON_parse w text) as [v|e]; reflexivity.
Qed.

(** C5, as the extractor has it: it never throws, whatever the message and
    whatever the service does.  On a string it calls the model once; when
    the call fails or the text is not JSON the result is [null]
    (ExtractionFailed); when the text is JSON the parsed value is returned
    as it is, with no test of its fields. *)
Theorem parseOrderAI_never_throws (message : value) (t : list effect) :
  (exists v t', V1.parseOrderAI w message t = (Normal v, t')) /\
  (forall s, message = VString s ->
     V1.parseOrderAI w message t =
       (Normal match generateContent_text w (V1.prompt s) with
               | Throw _ => VNull
               | Normal text =>
                   match JSON_parse w text with
                   | Throw _ => VNull
                   | Normal v => v
                   end
               end,
        t ++ [GenerateContent (V1.prompt s)])).
Proof.
  split.
  - unfold V1.parseOrderAI, try_catch, bind, lift, perform, ret.
    destruct (ToString w message) as [m|e]; [|eauto].
    destruct (generateContent_text w (V1.prompt m)) as [text|e]; [|eauto].
    destruct (JSON_parse w text) as [v|e]; eauto.
  - intros s ->. apply parseOrderAI_run.
Qed.

End Extractor.

Lemma parseOrderAI_never_throws_witness :
  V1.parseOrderAI world_unreachable (VString []) [] =
    (Normal VNull, [GenerateContent (V1.prompt [])]).
Proof.
  apply (proj2 (parseOrderAI_never_throws world_unreachable (VString []) []) []).
  reflexivity.
Defined.

(** C5, the claim as stated, at the response text [{"quantity":2}]: the
    response lacks the fields [product] and [unit], and the extractor
    returns the parsed object, which is not the outcome ExtractionFailed. *)
Lemma missing_fields_are_not_normalized :
  V1.parseOrderAI (world_answering quantity_only_text (Normal quantity_only))
                  (VString (str "2 kg")) [] =
    (Normal quantity_only, [GenerateContent (V1.prompt (str "2 kg"))]) /\
  well_formed_candidate quantity_only = false /\
  ExtractionFailed quantity_only = false.
Proof. repeat split; reflexivity. Qed.

(** ** Webhook verification *)

Section Verification.
Variable w : world.
Variable q : query.

(** C6, as the two copies have it.  First copy: 200 with the challenge
    when [hub.mode] is [subscribe] and [hub.verify_token] is the configured
    secret and not empty; 403 when both are present and not empty but not
    that pair; 400 when either is missing or empty.  Second copy: 200 with
    the challenge when [hub.mode] is [subscribe] and [hub.verify_token] is
    the configured secret; 403 in every other case, a missing parameter
    included. *)
Theorem verify_responses :
  (forall secret,
      hub_mode q = VString (str "subscribe") ->
      hub_verify_token q = VString secret ->
      WHATSAPP_VERIFY_TOKEN w = Some secret ->
      secret <> [] ->
      V1.verify w q = send 200 (hub_challenge q)) /\
  (truthy (hub_mode q) = true ->
   truthy (hub_verify_token q) = true ->
   strict_equals (hub_mode q) (VString (str "subscribe"))
     && strict_equals (hub_verify_token q) (V1.VERIFY_TOKEN w) = false ->
   V1.verify w q = sendStatus 403) /\
  (truthy (hub_mode q) && truthy (hub_verify_token q) = false ->
   V1.verify w q = sendStatus 400) /\
  (forall secret,
      hub_mode q = VString (str "subscribe") ->
      hub_verify_token q = VString secret ->
      WHATSAPP_VERIFY_TOKEN w = Some secret ->
      V2.verify w q = send 200 (hub_challenge q)) /\
  (strict_equals (hub_mode q) (VString (str "subscribe"))
     && strict_equals (hub_verify_token q) (V2.VERIFY_TOKEN w) = false ->
   V2.verify w q = sendStatus 403).
Proof.
  unfold V1.verify, V2.verify, V1.VERIFY_TOKEN, V2.VERIFY_TOKEN.
  repeat split.
  - intros secret Hmode Htoken Hsecret Hne.
    rewrite Hmode, Htoken, Hsecret. simpl.
    rewrite jsstring_eqb_refl.
    destruct secret; [contradiction|reflexivity].
  - intros Hm Ht Hne. now rewrite Hm, Ht, Hne.
  - intros Hfalsy. now rewrite Hfalsy.
  - intros secret Hmode Htoken Hsecret.
    rewrite Hmode, Htoken, Hsecret. simpl.
    now rewrite jsstring_eqb_refl.
  - intros Hne. now rewrite Hne.
Qed.

End Verification.

Lemma verify_responses_witness :
  V1.verify world_plain (subscribe_query (str "secret") (str "1158201444")) =
    send 200 (VString (str "1158201444")) /\
  V1.verify world_plain (subscribe_query (str "guess") (str "1158201444")) = sendStatus 403 /\
  V1.verify world_plain no_query = sendStatus 400 /\
  V2.verify world_plain (subscribe_query (str "secret") (str "1158201444")) =
    send 200 (VString (str "1158201444")) /\
  V2.verify world_plain (subscribe_query (str "guess") (str "1158201444")) = sendStatus 403.
Proof.
  split; [|split; [|split; [|split]]].
  - apply (proj1 (verify_responses world_plain
                    (subscribe_query (str "secret") (str "1158201444")))
             (str "secret")); [reflexivity|reflexivity|reflexivity|discriminate].
  - apply (proj1 (proj2 (verify_responses world_plain
                    (subscribe_query (str "guess") (str "1158201444"))))); reflexivity.
  - apply (proj1 (proj2 (proj2 (verify_responses world_plain no_query)))); reflexivity.
  - apply (proj1 (proj2 (proj2 (proj2 (verify_responses world_plain
                    (subscribe_query (str "secret") (str "1158201444"))))))
             (str "secret")); reflexivity.
  - apply (proj2 (proj2 (proj2 (proj2 (verify_responses world_plain
                    (subscribe_query (str "guess") (str "1158201444"))))))); reflexivity.
Defined.

(** C6, the claim as stated: the second copy answers a request without
    [hub.mode] and [hub.verify_token] with 403, not 400; and the first copy
    answers 400, not 200, when the configured secret is the empty string and
    the request carries it. *)
Lemma verification_status_differs :
  V2.verify world_plain no_query = sendStatus 403 /\
  V1.verify (with_secret (Some []) world_plain) (subscribe_query [] (str "1158201444")) =
    sendStatus 400.
Proof. split; reflexivity. Qed.

(** ** The POST handler *)

Section Webhook.
Variable w : world.

Lemma delivery_guard (from text : jsstring) :
  V1.messages_guard (delivery from text) = Normal (VArray [message from text]).
Proof. reflexivity. Qed.

Lemma delivery_first_message (from text : jsstring) :
  V1.first_message (delivery from text) = Normal (message from text).
Proof. reflexivity. Qed.

Lemma message_from (from text : jsstring) :
  get (message from text) (str "from") = Normal (VString from).
Proof. reflexivity. Qed.

Lemma message_text_body (from text : jsstring) :
  V1.message_text (message from text) = Normal (VString text).
Proof. destruct text; reflexivity. Qed.

(** A delivery whose guard is falsy is acknowledged and ignored. *)
Lemma webhook_ignores (data g : value) (t : list effect) :
  V1.messages_guard data = Normal g ->
  truthy g = false ->
  V1.webhook w data t = (Normal (sendStatus 200), t).
Proof.
  intros Hg Hfalsy. unfold V1.webhook, try_catch, bind, lift.
  now rewrite Hg, Hfalsy.
Qed.

(** A throw of the method call on a non-string [product]. *)
Lemma priceOrder_non_string (parsed : value) :
  truthy parsed = true ->
  string_product parsed = false ->
  V1.priceOrder w parsed = Throw TypeError.
Proof.
  intros Htruthy Hprod. unfold V1.priceOrder.
  destruct (truthy_get parsed (str "product") Htruthy) as [y Hy].
  unfold string_product in Hprod. rewrite Hy in *.
  destruct y; simpl; try reflexivity. discriminate.
Qed.

(** The handler on a delivery, once the extractor has returned a truthy
    value: what the pricing block decides. *)
Lemma webhook_after_extraction (from text : jsstring) (parsed : value) (t t' : list effect) :
  V1.parseOrderAI w (VString text) t = (Normal parsed, t') ->
  truthy parsed = true ->
  V1.webhook w (delivery from text) t =
    match V1.priceOrder w parsed with
    | Throw _ => (Normal (sendStatus 500), t')
    | Normal None =>
        finish (V1.sendWhatsapp w (VString from) (str "Product not found.") t')
    | Normal (Some o) =>
        let fileName := str "invoice-" ++ decimal (Date_now w) ++ str ".pdf" in
        match V1.generateInvoice w o fileName t' with
        | (Settled (Throw _), t'') => (Normal (sendStatus 500), t'')
        | (Settled (Normal _), t'') => finish (V1.deliver w (VString from) o fileName t'')
        | (Pending, t'') => (Pending, t'')
        end
    end.
Proof.
  intros Hparse Htruthy.
  unfold V1.webhook, try_catch, bind, lift.
  rewrite delivery_guard, delivery_first_message, message_from, message_text_body.
  cbn [truthy]. rewrite Hparse, Htruthy. cbn [negb].
  destruct (V1.priceOrder w parsed) as [[o|]|e]; [| |reflexivity].
  - cbv zeta.
    destruct (V1.generateInvoice w o _ t') as [[[path|e]|] t''];
      [|reflexivity|reflexivity].
    unfold finish.
    destruct (V1.deliver w (VString from) o _ t'') as [[[u|e]|] t3]; reflexivity.
  - unfold finish.
    destruct (V1.sendWhatsapp w (VString from) _ t') as [[[u|e]|] t'']; reflexivity.
Qed.

(** X15, the branch of line 139: a name the catalog read gives nothing
    for is answered with the product-not-found message. *)
Lemma product_not_found_is_notified
    (from text reply name : jsstring) (parsed : value) (t : list effect) :
  generateContent_text w (V1.prompt text) = Normal reply ->
  JSON_parse w reply = Normal parsed ->
  truthy parsed = true ->
  get parsed (str "product") = Normal (VString name) ->
  truthy (lookup name) = false ->
  V1.webhook w (delivery from text) t =
    finish (V1.sendWhatsapp w (VString from) (str "Product not found.")
              (t ++ [GenerateContent (V1.prompt text)])).
Proof.
  intros Hreply Hjson Htruthy Hname Hfalsy.
  rewrite (webhook_after_extraction from text parsed t
             (t ++ [GenerateContent (V1.prompt text)])); [|  |exact Htruthy].
  - now rewrite (priceOrder_unmatched w parsed name Hname Hfalsy).
  - rewrite parseOrderAI_run, Hreply, Hjson. reflexivity.
Qed.

(** C10: when the extractor returns a truthy value with no string in its
    [product] field, [parsed.product.toLowerCase()] throws a TypeError out
    of the pricing block; the [catch] of the handler answers 500, and the
    only call made is the one to the model: nothing is sent to the
    sender. *)
Theorem non_string_product_answers_500
    (from text reply : jsstring) (parsed : value) (t : list effect) :
  generateContent_text w (V1.prompt text) = Normal reply ->
  JSON_parse w reply = Normal parsed ->
  truthy parsed = true ->
  string_product parsed = false ->
  V1.priceOrder w parsed = Throw TypeError /\
  V1.webhook w (delivery from text) t =
    (Normal (sendStatus 500), t ++ [GenerateContent (V1.prompt text)]).
Proof.
  intros Hreply Hjson Htruthy Hprod.
  pose proof (priceOrder_non_string parsed Htruthy Hprod) as Hprice.
  split; [exact Hprice|].
  rewrite (webhook_after_extraction from text parsed t
             (t ++ [GenerateContent (V1.prompt text)])); [|  |exact Htruthy].
  - now rewrite Hprice.
  - rewrite parseOrderAI_run, Hreply, Hjson. reflexivity.
Qed.

(** C7, at the failing input [{"entry": []}]: the path to a message is
    absent, [data.entry] is truthy, [data.entry[0]] is [undefined] and the
    read of [changes] throws; both copies answer 500, with no call made. *)
Theorem empty_entry_answers_500 (t : list effect) :
  V1.messages_guard empty_entry = Throw TypeError /\
  V1.webhook w empty_entry t = (Normal (sendStatus 500), t) /\
  V2.webhook w empty_entry t = (Normal (sendStatus 500), t).
Proof. repeat split; reflexivity. Qed.

End Webhook.

Lemma non_string_product_answers_500_witness :
  V1.priceOrder (world_answering quantity_only_text (Normal quantity_only)) quantity_only =
    Throw TypeError /\
  V1.webhook (world_answering quantity_only_text (Normal quantity_only))
             (delivery (str "911") (str "2 kg")) [] =
    (Normal (sendStatus 500), [] ++ [GenerateContent (V1.prompt (str "2 kg"))]).
Proof.
  apply (non_string_product_answers_500
           (world_answering quantity_only_text (Normal quantity_only))
           (str "911") (str "2 kg") quantity_only_text quantity_only []);
    reflexivity.
Defined.

(** C3, at the failing input: the product name [constructor] is no Catalog
    Entry, yet the catalog read finds the inherited property
    [Object.prototype.constructor], the test [!product] lets it through and
    the order is priced with an [undefined] price and total [NaN].  The
    handler does not post the product-not-found message: after the call to
    the model it opens the invoice of that order, and waits on it. *)
Theorem inherited_name_is_priced :
  own_property V1.PRODUCTS (toLowerCase (str "constructor")) = None /\
  (forall w,
      pricing_state w (candidate (str "constructor") (VNumber 1%float) (str "kg")) =
        Normal (Priced {| product := VString (str "constructor");
                          quantity := VNumber 1%float;
                          unit_ := VString (str "kg");
                          price := VUndefined;
                          total := PrimFloat.nan |})) /\
  V1.webhook world_constructor (delivery (str "911") (str "1 kg constructor")) [] =
    (Pending,
     [ GenerateContent (V1.prompt (str "1 kg constructor"));
       GenerateInvoice {| product := VString (str "constructor");
                          quantity := VNumber 1%float;
                          unit_ := VString (str "kg");
                          price := VUndefined;
                          total := PrimFloat.nan |}
                       (str "invoice-1700000000000.pdf") ]).
Proof.
  split; [reflexivity|]. split; [intros w; reflexivity|].
  vm_compute. reflexivity.
Qed.

(** ** The two copies *)

Section Copies.
Variable w : world.

Lemma same_parseOrderAI (message : value) (t : list effect) :
  V2.parseOrderAI w message t = V1.parseOrderAI w message t.
Proof. reflexivity. Qed.

Lemma same_priceOrder (parsed : value) : V2.priceOrder w parsed = V1.priceOrder w parsed.
Proof. reflexivity. Qed.

(** The product of a priced order is the string of the output. *)
Lemma priceOrder_product (parsed : value) (o : order) :
  V1.priceOrder w parsed = Normal (Some o) ->
  exists name, get parsed (str "product") = Normal (VString name) /\ product o = VString name.
Proof.
  unfold V1.priceOrder.
  destruct (get parsed (str "product")) as [[| | | |name| | |]|?]; simpl; try discriminate.
  destruct (truthy (get_object V1.PRODUCTS (toLowerCase name))); simpl; [|discriminate].
  destruct (get parsed (str "quantity")) as [q|?]; simpl; [|discriminate].
  destruct (get parsed (str "unit")) as [u|?]; simpl; [|discriminate].
  destruct (get (get_object V1.PRODUCTS (toLowerCase name)) (str "price")) as [p|?];
    simpl; [|discriminate].
  destruct (multiply w p q) as [n|?]; simpl; [|discriminate].
  intros H. injection H as <-. eauto.
Qed.

(** The two handlers, step by step.  They run alike up to the end of
    [generateInvoice]; only when the invoice of the priced order resolves
    does each post its confirmation, to the same address, after the same
    calls: the text in the first copy, the document in the second. *)
Lemma webhooks_part_at_delivery (data : value) (t : list effect) :
  V1.webhook w data t = V2.webhook w data t \/
  exists msg from text parsed t1 o name,
    V1.first_message data = Normal msg /\
    get msg (str "from") = Normal from /\
    V1.message_text msg = Normal text /\
    V1.parseOrderAI w text t = (Normal parsed, t1) /\
    V1.priceOrder w parsed = Normal (Some o) /\
    product o = VString name /\
    V1.generateInvoice w o (invoice_name w) t1 =
      (Normal (str "./" ++ invoice_name w), t1 ++ [GenerateInvoice o (invoice_name w)]) /\
    let confirmation := text_message from (confirmation_text w name (total o)) in
    let document := document_message from (invoice_name w) in
    V1.webhook w data t =
      (Normal (sendStatus match axios_post w (V1.messages_url w) confirmation (V1.bearer w) with
                          | Normal _ => 200
                          | Throw _ => 500
                          end),
       t1 ++ [GenerateInvoice o (invoice_name w);
              AxiosPost (V1.messages_url w) confirmation (V1.bearer w)]) /\
    V2.webhook w data t =
      (Normal (sendStatus match axios_post w (V1.messages_url w) document (V1.bearer w) with
                          | Normal _ => 200
                          | Throw _ => 500
                          end),
       t1 ++ [GenerateInvoice o (invoice_name w);
              AxiosPost (V1.messages_url w) document (V1.bearer w)]).
Proof.
  unfold V1.webhook, V2.webhook, try_catch, bind, lift.
  change V2.messages_guard with V1.messages_guard.
  change V2.first_message with V1.first_message.
  change V2.message_text with V1.message_text.
  change V2.parseOrderAI with V1.parseOrderAI.
  change V2.priceOrder with V1.priceOrder.
  change V2.sendWhatsapp with V1.sendWhatsapp.
  change V2.generateInvoice with V1.generateInvoice.
  destruct (V1.messages_guard data) as [g|e]; [|left; reflexivity].
  destruct (truthy g); [|left; reflexivity].
  destruct (V1.first_message data) as [msg|e] eqn:Hmsg; [|left; reflexivity].
  destruct (get msg (str "from")) as [from|e] eqn:Hfrom; [|left; reflexivity].
  destruct (V1.message_text msg) as [text|e] eqn:Htext; [|left; reflexivity].
  destruct (V1.parseOrderAI w text t) as [[[parsed|e]|] t1] eqn:Hparse;
    [|left; reflexivity|left; reflexivity].
  destruct (truthy parsed); cbn [negb]; [|left; reflexivity].
  destruct (V1.priceOrder w parsed) as [[o|]|e] eqn:Hprice;
    [|left; reflexivity|left; reflexivity].
  destruct (priceOrder_product parsed o Hprice) as [name [_ Hname]].
  cbv zeta. fold (invoice_name w).
  destruct (V1.generateInvoice w o (invoice_name w) t1) as [[[path|e]|] t2] eqn:Hinvoice;
    [|left; reflexivity|left; reflexivity].
  right. exists msg, from, text, parsed, t1, o, name.
  assert (Hrun : (Settled (Normal path), t2) =
                 (Settled (Normal (str "./" ++ invoice_name w)),
                  t1 ++ [GenerateInvoice o (invoice_name w)])).
  { rewrite <- Hinvoice. unfold V1.generateInvoice.
    unfold V1.generateInvoice in Hinvoice.
    destruct (invoice_text w o) as [written [fault|]]; [discriminate|].
    destruct (pdf_emits_finish w); [reflexivity|discriminate]. }
  injection Hrun as -> ->.
  repeat (split; [first [reflexivity|assumption]|]). cbv zeta. split.
  - unfold V1.deliver, bind, lift. rewrite Hname. cbn [ToString].
    unfold V1.sendWhatsapp, perform, text_message, confirmation_text.
    rewrite <- app_assoc. cbn [app].
    destruct (axios_post w _ _ _); reflexivity.
  - unfold V2.deliver, perform, document_message.
    rewrite <- app_assoc. cbn [app].
    destruct (axios_post w _ _ _); reflexivity.
Qed.

(** C9: the two copies have the same catalog, the same extractor, the same
    case-insensitive catalog read and the same price and total; and their
    POST handlers run alike on every delivery, with the same answer and the
    same calls, except in one case: when the same message gives the same
    priced order and its invoice resolves, the first copy posts the text
    confirmation and the second the document, to the same sender after the
    same calls. *)
Theorem copies_agree_up_to_delivery :
  V1.PRODUCTS = V2.PRODUCTS /\
  (forall message t, V1.parseOrderAI w message t = V2.parseOrderAI w message t) /\
  (forall name,
      get_object V1.PRODUCTS (toLowerCase name) = get_object V2.PRODUCTS (toLowerCase name)) /\
  (forall parsed, V1.priceOrder w parsed = V2.priceOrder w parsed) /\
  (forall data t,
      V1.webhook w data t = V2.webhook w data t \/
      exists msg from text parsed t1 o name,
        V1.first_message data = Normal msg /\
        get msg (str "from") = Normal from /\
        V1.message_text msg = Normal text /\
        V1.parseOrderAI w text t = (Normal parsed, t1) /\
        V1.priceOrder w parsed = Normal (Some o) /\
        product o = VString name /\
        V1.generateInvoice w o (invoice_name w) t1 =
          (Normal (str "./" ++ invoice_name w), t1 ++ [GenerateInvoice o (invoice_name w)]) /\
        let confirmation := text_message from (confirmation_text w name (total o)) in
        let document := document_message from (invoice_name w) in
        V1.webhook w data t =
          (Normal (sendStatus match axios_post w (V1.messages_url w) confirmation (V1.bearer w) with
                              | Normal _ => 200
                              | Throw _ => 500
                              end),
           t1 ++ [GenerateInvoice o (invoice_name w);
                  AxiosPost (V1.messages_url w) confirmation (V1.bearer w)]) /\
        V2.webhook w data t =
          (Normal (sendStatus match axios_post w (V1.messages_url w) document (V1.bearer w) with
                              | Normal _ => 200
                              | Throw _ => 500
                              end),
           t1 ++ [GenerateInvoice o (invoice_name w);
                  AxiosPost (V1.messages_url w) document (V1.bearer w)])).
Proof.
  split; [reflexivity|].
  split; [intros message t; symmetry; apply same_parseOrderAI|].
  split; [reflexivity|].
  split; [intros parsed; symmetry; apply same_priceOrder|].
  apply webhooks_part_at_delivery.
Qed.

End Copies.

(** * Further properties *)

(** ** Webhook verification, both copies *)

Section VerificationMore.
Variable w : world.
Variable q : query.

Lemma strict_equals_string (v : value) (s : jsstring) :
  strict_equals v (VString s) = true -> v = VString s.
Proof.
  destruct v; simpl; try discriminate.
  intros H. apply jsstring_eqb_eq in H. now subst.
Qed.

Lemma strict_equals_env (v : value) (e : option jsstring) :
  strict_equals v (env_value e) = true ->
  (exists s, v = VString s /\ e = Some s) \/ (v = VUndefined /\ e = None).
Proof.
  destruct e as [s|]; simpl.
  - intros H. apply strict_equals_string in H. eauto.
  - destruct v; simpl; try discriminate. auto.
Qed.

(** X1: a verification request is answered 200 only when [hub.mode] is
    [subscribe] and [hub.verify_token] is the configured secret; the body is
    then [hub.challenge].  In the first copy the secret is moreover not
    empty; in the second copy the other way to a 200 is a request without
    [hub.verify_token] when no secret is configured. *)
Theorem verified_only_with_the_secret :
  (status (V1.verify w q) = 200 ->
   hub_mode q = VString (str "subscribe") /\
   (exists secret,
       hub_verify_token q = VString secret /\
       WHATSAPP_VERIFY_TOKEN w = Some secret /\
       secret <> []) /\
   V1.verify w q = send 200 (hub_challenge q)) /\
  (status (V2.verify w q) = 200 ->
   hub_mode q = VString (str "subscribe") /\
   ((exists secret,
        hub_verify_token q = VString secret /\
        WHATSAPP_VERIFY_TOKEN w = Some secret) \/
    (hub_verify_token q = VUndefined /\ WHATSAPP_VERIFY_TOKEN w = None)) /\
   V2.verify w q = send 200 (hub_challenge q)).
Proof.
  unfold V1.verify, V2.verify, V1.VERIFY_TOKEN, V2.VERIFY_TOKEN. split.
  - destruct (truthy (hub_mode q) && truthy (hub_verify_token q)) eqn:Hpresent;
      [|discriminate].
    destruct (strict_equals (hub_mode q) (VString (str "subscribe"))) eqn:Hmode;
      [|discriminate].
    destruct (strict_equals (hub_verify_token q) (env_value (WHATSAPP_VERIFY_TOKEN w)))
      eqn:Htoken; [|discriminate].
    intros _. apply strict_equals_string in Hmode.
    apply andb_true_iff in Hpresent as [_ Htruthy].
    split; [exact Hmode|]. split; [|reflexivity].
    destruct (strict_equals_env _ _ Htoken) as [[secret [Hv He]]|[Hv He]].
    + exists secret. repeat split; auto.
      intros ->. rewrite Hv in Htruthy. discriminate.
    + rewrite Hv in Htruthy. discriminate.
  - destruct (strict_equals (hub_mode q) (VString (str "subscribe"))) eqn:Hmode;
      [|discriminate].
    destruct (strict_equals (hub_verify_token q) (env_value (WHATSAPP_VERIFY_TOKEN w)))
      eqn:Htoken; [|discriminate].
    intros _. apply strict_equals_string in Hmode.
    split; [exact Hmode|]. split; [|reflexivity].
    apply strict_equals_env. exact Htoken.
Qed.

(** X2: the two copies answer a verification request alike, except when
    [hub.mode] or [hub.verify_token] is missing or empty: there the first
    copy answers 400 whatever the second answers. *)
Theorem verify_copies_differ_only_at_400 :
  V1.verify w q = V2.verify w q \/
  (truthy (hub_mode q) && truthy (hub_verify_token q) = false /\
   V1.verify w q = sendStatus 400).
Proof.
  unfold V1.verify, V2.verify.
  destruct (truthy (hub_mode q) && truthy (hub_verify_token q)); [left|right]; auto.
Qed.

(** X3: with no secret configured ([WHATSAPP_VERIFY_TOKEN] unset), the
    first copy never verifies a request (403 or 400), and the second copy
    verifies every [subscribe] request that carries no [hub.verify_token]:
    [undefined === undefined]. *)
Theorem unconfigured_secret :
  WHATSAPP_VERIFY_TOKEN w = None ->
  (V1.verify w q = sendStatus 403 \/ V1.verify w q = sendStatus 400) /\
  (hub_mode q = VString (str "subscribe") ->
   hub_verify_token q = VUndefined ->
   V2.verify w q = send 200 (hub_challenge q)).
Proof.
  intros Hnone.
  unfold V1.verify, V2.verify, V1.VERIFY_TOKEN, V2.VERIFY_TOKEN. rewrite Hnone. split.
  - destruct (truthy (hub_mode q) && truthy (hub_verify_token q)) eqn:Hpresent; [|auto].
    left. apply andb_true_iff in Hpresent as [_ Htruthy].
    destruct (hub_verify_token q); simpl in *; try discriminate;
      now rewrite andb_false_r.
  - intros -> ->. reflexivity.
Qed.

End VerificationMore.

Lemma verified_only_with_the_secret_witness :
  hub_mode (subscribe_query (str "secret") (str "1158201444")) = VString (str "subscribe") /\
  (exists secret,
      hub_verify_token (subscribe_query (str "secret") (str "1158201444")) = VString secret /\
      WHATSAPP_VERIFY_TOKEN world_plain = Some secret /\
      secret <> []) /\
  V1.verify world_plain (subscribe_query (str "secret") (str "1158201444")) =
    send 200 (hub_challenge (subscribe_query (str "secret") (str "1158201444"))).
Proof.
  apply (proj1 (verified_only_with_the_secret world_plain
                  (subscribe_query (str "secret") (str "1158201444")))).
  reflexivity.
Defined.

Lemma unconfigured_secret_witness :
  (V1.verify (with_secret None world_plain)
     {| hub_mode := VString (str "subscribe"); hub_verify_token := VUndefined;
        hub_challenge := VString (str "1158201444") |} = sendStatus 403 \/
   V1.verify (with_secret None world_plain)
     {| hub_mode := VString (str "subscribe"); hub_verify_token := VUndefined;
        hub_challenge := VString (str "1158201444") |} = sendStatus 400) /\
  V2.verify (with_secret None world_plain)
     {| hub_mode := VString (str "subscribe"); hub_verify_token := VUndefined;
        hub_challenge := VString (str "1158201444") |} =
    send 200 (VString (str "1158201444")).
Proof.
  destruct (unconfigured_secret (with_secret None world_plain)
              {| hub_mode := VString (str "subscribe"); hub_verify_token := VUndefined;
                 hub_challenge := VString (str "1158201444") |} eq_refl) as [H1 H2].
  split; [exact H1|]. apply H2; reflexivity.
Defined.

(** ** The pricing block, read backwards *)

Section PricingMore.
Variable w : world.

(** X4: a Priced Order exists only for an extractor output whose [product]
    is a string with a truthy catalog read; its [product], [quantity] and
    [unit] are those of the output as they are, its price is the [price]
    of what the catalog read gave, and its total is the product of the
    two. *)
Theorem priced_order_comes_from_the_output (parsed : value) (o : order) :
  V1.priceOrder w parsed = Normal (Some o) ->
  exists name,
    get parsed (str "product") = Normal (VString name) /\
    truthy (lookup name) = true /\
    product o = VString name /\
    get parsed (str "quantity") = Normal (quantity o) /\
    get parsed (str "unit") = Normal (unit_ o) /\
    get (lookup name) (str "price") = Normal (price o) /\
    multiply w (price o) (quantity o) = Normal (total o).
Proof.
  unfold V1.priceOrder, lookup.
  destruct (get parsed (str "product")) as [v|e]; [|discriminate].
  destruct v as [| | | |name| | |]; simpl; try discriminate.
  destruct (truthy (get_object V1.PRODUCTS (toLowerCase name))) eqn:Hfound;
    simpl; [|discriminate].
  destruct (get parsed (str "quantity")) as [q|e]; simpl; [|discriminate].
  destruct (get parsed (str "unit")) as [u|e]; simpl; [|discriminate].
  destruct (get (get_object V1.PRODUCTS (toLowerCase name)) (str "price")) as [p|e]
    eqn:Hprice; simpl; [|discriminate].
  destruct (multiply w p q) as [n|e] eqn:Hmul; simpl; [|discriminate].
  intros H. injection H as <-. simpl. exists name. repeat split; auto.
Qed.

(** X5: the pricing block answers [Product not found.] exactly when the
    [product] of the output is a string whose catalog read is falsy. *)
Theorem not_found_iff_falsy_read (parsed : value) :
  V1.priceOrder w parsed = Normal None <->
  exists name,
    get parsed (str "product") = Normal (VString name) /\
    truthy (lookup name) = false.
Proof.
  split.
  - unfold V1.priceOrder, lookup.
    destruct (get parsed (str "product")) as [v|e]; [|discriminate].
    destruct v as [| | | |name| | |]; simpl; try discriminate.
    destruct (truthy (get_object V1.PRODUCTS (toLowerCase name))) eqn:Hfound; simpl.
    + destruct (get parsed (str "quantity")) as [q|e]; simpl; [|discriminate].
      destruct (get parsed (str "unit")) as [u|e]; simpl; [|discriminate].
      destruct (get (get_object V1.PRODUCTS (toLowerCase name)) (str "price")) as [p|e];
        simpl; [|discriminate].
      destruct (multiply w p q) as [n|e]; simpl; discriminate.
    + intros _. exists name. auto.
  - intros [name [Hname Hfalsy]]. exact (priceOrder_unmatched w parsed name Hname Hfalsy).
Qed.

End PricingMore.

Lemma priced_order_comes_from_the_output_witness :
  exists name,
    get (candidate (str "Rice") (VNumber 2%float) (str "kg")) (str "product") =
      Normal (VString name) /\
    truthy (lookup name) = true /\
    VString (str "Rice") = VString name /\
    get (candidate (str "Rice") (VNumber 2%float) (str "kg")) (str "quantity") =
      Normal (VNumber 2%float) /\
    get (candidate (str "Rice") (VNumber 2%float) (str "kg")) (str "unit") =
      Normal (VString (str "kg")) /\
    get (lookup name) (str "price") = Normal (VNumber 60%float) /\
    multiply world_plain (VNumber 60%float) (VNumber 2%float) = Normal 120%float.
Proof.
  apply (priced_order_comes_from_the_output world_plain
           (candidate (str "Rice") (VNumber 2%float) (str "kg"))
           {| product := VString (str "Rice"); quantity := VNumber 2%float;
              unit_ := VString (str "kg"); price := VNumber 60%float;
              total := 120%float |}).
  reflexivity.
Defined.

(** ** The names the catalog read accepts *)

Section PricedNames.

Lemma lower_unit_no_capital (c : N) :
  is_ascii c = true -> forallb (fun d => negb (is_capital d)) (lower_unit c) = true.
Proof.
  intros H. rewrite (lower_unit_ascii c H).
  unfold is_ascii, is_capital in *. apply N.ltb_lt in H.
  destruct ((65 <=? c) && (c <=? 90)) eqn:Hc; simpl; rewrite andb_true_r.
  - apply andb_true_iff in Hc as [H1 H2].
    apply N.leb_le in H1. apply N.leb_le in H2.
    apply negb_true_iff, andb_false_iff. right. apply N.leb_gt. lia.
  - now rewrite Hc.
Qed.

Lemma toLowerCase_no_capital (s : jsstring) :
  forallb is_ascii s = true ->
  forallb (fun d => negb (is_capital d)) (toLowerCase s) = true.
Proof.
  induction s as [|c s IH]; simpl; [reflexivity|].
  intros H. apply andb_true_iff in H as [Hc Hs].
  rewrite forallb_app, lower_unit_no_capital, IH; auto.
Qed.

(** A key with an own property is one of the listed keys. *)
Lemma own_property_key (props : list (jsstring * value)) (key : jsstring) (v : value) :
  own_property props key = Some v -> In key (map fst props).
Proof.
  induction props as [|[k x] props IH]; simpl; [discriminate|].
  destruct (jsstring_eqb k key) eqn:Hk.
  - intros _. left. now apply jsstring_eqb_eq.
  - intros H. right. now apply IH.
Qed.

(** The catalog read at a key: truthy only at the own keys and at the
    property names of [Object.prototype]. *)
Lemma truthy_read_keys (key : jsstring) :
  truthy (get_object V1.PRODUCTS key) = true ->
  In key (map fst V1.PRODUCTS) \/ In key (map fst Object_prototype).
Proof.
  unfold get_object.
  destruct (own_property V1.PRODUCTS key) as [v|] eqn:Hown.
  - intros _. left. exact (own_property_key _ _ _ Hown).
  - destruct (own_property Object_prototype key) as [v|] eqn:Hproto; [|discriminate].
    intros _. right. exact (own_property_key _ _ _ Hproto).
Qed.

(** X6: for a product name of Basic Latin, the catalog read is truthy, and
    so the order is priced, exactly when the lowercased name is [sugar],
    [oil], [rice], [constructor] or [__proto__]. *)
Theorem priced_names (name : jsstring) :
  forallb is_ascii name = true ->
  truthy (lookup name) = true <-> In (toLowerCase name) priced_keys.
Proof.
  intros Hascii. pose proof (toLowerCase_no_capital name Hascii) as Hlow.
  unfold lookup. split.
  - intros Htruthy. apply truthy_read_keys in Htruthy.
    unfold priced_keys. simpl in Htruthy |- *.
    repeat match goal with
           | H : _ \/ _ |- _ => destruct H
           | H : False |- _ => contradiction
           end;
      try (subst; auto 10; fail);
      match goal with
      | H : _ = toLowerCase name |- _ => rewrite <- H in Hlow; vm_compute in Hlow; discriminate
      end.
  - unfold priced_keys. simpl.
    intros H.
    repeat match goal with
           | H : _ \/ _ |- _ => destruct H
           | H : False |- _ => contradiction
           end;
      match goal with
      | H : _ = toLowerCase name |- _ => rewrite <- H; reflexivity
      end.
Qed.

End PricedNames.

Lemma priced_names_witness :
  truthy (lookup (str "OIL")) = true <-> In (toLowerCase (str "OIL")) priced_keys.
Proof.
  apply (priced_names (str "OIL")). reflexivity.
Defined.

(** ** The invoice of a priced order *)

Section Invoice.
Variable w : world.

(** A value that converts to a number converts to a string. *)
Lemma ToNumber_ToString (q : value) (n : float) :
  ToNumber w q = Normal n -> exists s, ToString w q = Normal s.
Proof.
  destruct q as [| | | | |elems|props|name]; try (simpl; eauto; fail).
  - unfold ToNumber. destruct (ToString w (VArray elems)) as [s|e]; [eauto|discriminate].
  - unfold ToNumber. destruct (ToString w (VObject props)) as [s|e]; [eauto|discriminate].
Qed.

Lemma own_property_value (props : list (jsstring * value)) (key : jsstring) (v : value) :
  own_property props key = Some v -> In v (map snd props).
Proof.
  induction props as [|[k x] props IH]; simpl; [discriminate|].
  destruct (jsstring_eqb k key).
  - intros H. injection H as ->. now left.
  - intros H. right. now apply IH.
Qed.

(** The [price] of whatever the catalog read gives is a number (an entry)
    or [undefined] (an inherited property). *)
Lemma price_of_read (key : jsstring) (v : value) :
  get (get_object V1.PRODUCTS key) (str "price") = Normal v ->
  (exists p, v = VNumber p) \/ v = VUndefined.
Proof.
  unfold get_object.
  destruct (own_property V1.PRODUCTS key) as [x|] eqn:Hown.
  - apply own_property_value in Hown. simpl in Hown.
    intros H. left.
    repeat match goal with
           | H : _ \/ _ |- _ => destruct H
           | H : False |- _ => contradiction
           end; subst x; vm_compute in H; injection H as <-; eauto.
  - destruct (own_property Object_prototype key) as [x|] eqn:Hproto.
    + apply own_property_value in Hproto. simpl in Hproto.
      intros H. right.
      repeat match goal with
             | H : _ \/ _ |- _ => destruct H
             | H : False |- _ => contradiction
             end; subst x; simpl in H; now injection H as <-.
    + simpl. discriminate.
Qed.

Ltac invert_priceOrder parsed name q u p n Hprice Hmul :=
  unfold V1.priceOrder;
  destruct (get parsed (str "product")) as [[| | | |name| | |]|?]; simpl; try discriminate;
  destruct (truthy (get_object V1.PRODUCTS (toLowerCase name))); simpl; [|discriminate];
  destruct (get parsed (str "quantity")) as [q|?]; simpl; [|discriminate];
  destruct (get parsed (str "unit")) as [u|?]; simpl; [|discriminate];
  destruct (get (get_object V1.PRODUCTS (toLowerCase name)) (str "price")) as [p|?]
    eqn:Hprice; simpl; [|discriminate];
  destruct (multiply w p q) as [n|?] eqn:Hmul; simpl; [|discriminate].

(** X7: the invoice of a priced order.  Its product is a string and its
    quantity and price always convert to text, so [generateInvoice] writes
    the title and the product line, and then either all five lines, or,
    when the [unit] of the order does not convert (an object with its own
    [toString] field), nothing more: the promise rejects with that
    fault. *)
Theorem invoice_of_priced_order (parsed : value) (o : order) :
  V1.priceOrder w parsed = Normal (Some o) ->
  exists name qs ps,
    product o = VString name /\
    ToString w (quantity o) = Normal qs /\
    ToString w (price o) = Normal ps /\
    invoice_text w o =
      match ToString w (unit_ o) with
      | Normal u =>
          ([ str "Invoice";
             str "Product: " ++ name;
             str "Quantity: " ++ qs ++ str " " ++ u;
             str "Price: " ++ rupee ++ ps;
             str "Total: " ++ rupee ++ NumberToString w (total o) ], None)
      | Throw e => ([str "Invoice"; str "Product: " ++ name], Some e)
      end.
Proof.
  invert_priceOrder parsed name q u p n Hprice Hmul.
  intros H. injection H as <-.
  assert (exists qs, ToString w q = Normal qs) as [qs Hqs].
  { unfold multiply in Hmul.
    destruct (ToNumber w p) as [x|e]; simpl in Hmul; [|discriminate].
    destruct (ToNumber w q) as [y|e] eqn:Hq; simpl in Hmul; [|discriminate].
    exact (ToNumber_ToString q y Hq). }
  assert (exists ps, ToString w p = Normal ps) as [ps Hps].
  { destruct (price_of_read _ _ Hprice) as [[x ->]| ->]; simpl; eauto. }
  exists name, qs, ps. unfold invoice_text, invoice_lines. cbn [product quantity unit_ price total].
  repeat split; auto.
  rewrite Hqs, Hps. cbn [ToString cbind write_lines].
  destruct (ToString w u) as [us|e]; reflexivity.
Qed.

End Invoice.

Lemma invoice_of_priced_order_witness :
  exists name qs ps,
    VString (str "sugar") = VString name /\
    ToString world_plain (VNumber 2%float) = Normal qs /\
    ToString world_plain (VNumber 40%float) = Normal ps /\
    invoice_text world_plain
      {| product := VString (str "sugar"); quantity := VNumber 2%float;
         unit_ := VString (str "kg"); price := VNumber 40%float; total := 80%float |} =
      ([ str "Invoice";
         str "Product: " ++ name;
         str "Quantity: " ++ qs ++ str " " ++ str "kg";
         str "Price: " ++ rupee ++ ps;
         str "Total: " ++ rupee ++ NumberToString world_plain 80%float ], None).
Proof.
  apply (invoice_of_priced_order world_plain
           (candidate (str "sugar") (VNumber 2%float) (str "kg"))
           {| product := VString (str "sugar"); quantity := VNumber 2%float;
              unit_ := VString (str "kg"); price := VNumber 40%float; total := 80%float |}).
  reflexivity.
Defined.

(** An order whose [unit] is the object [{"toString": 1}]: the invoice
    stops after the product line. *)
Example invoice_stops_at_the_unit :
  invoice_text world_plain
    {| product := VString (str "sugar"); quantity := VNumber 2%float;
       unit_ := VObject [(str "toString", VNumber 1%float)];
       price := VNumber 40%float; total := 80%float |} =
    ([str "Invoice"; str "Product: sugar"], Some TypeError).
Proof. reflexivity. Qed.

(** ** The text of a message *)

(** X8: [msg.text?.body || ""] on a message whose [from] could be read
    never throws.  It is the body when the body is truthy, and the empty
    string in every other case: a [text] that is [undefined] or [null],
    and a body that is missing, empty or otherwise falsy. *)
Theorem message_text_defaults (msg to : value) :
  get msg (str "from") = Normal to ->
  exists text,
    get msg (str "text") = Normal text /\
    ((text = VUndefined \/ text = VNull) /\ V1.message_text msg = Normal (VString []) \/
     exists body,
       get text (str "body") = Normal body /\
       V1.message_text msg = Normal (if truthy body then body else VString [])).
Proof.
  intros Hfrom. unfold V1.message_text.
  destruct (get_defined _ _ _ Hfrom (str "text")) as [text Htext].
  exists text. split; [exact Htext|]. rewrite Htext. simpl.
  destruct text; simpl;
    first [ left; split; [solve [auto]|reflexivity]
          | right; eexists; split; reflexivity ].
Qed.

Lemma message_text_defaults_witness :
  exists text,
    get (VObject [(str "from", VString (str "911"));
                  (str "text", VObject [(str "body", VString [])])]) (str "text") =
      Normal text /\
    ((text = VUndefined \/ text = VNull) /\
     V1.message_text (VObject [(str "from", VString (str "911"));
                               (str "text", VObject [(str "body", VString [])])]) =
       Normal (VString []) \/
     exists body,
       get text (str "body") = Normal body /\
       V1.message_text (VObject [(str "from", VString (str "911"));
                                 (str "text", VObject [(str "body", VString [])])]) =
         Normal (if truthy body then body else VString [])).
Proof.
  apply (message_text_defaults
           (VObject [(str "from", VString (str "911"));
                     (str "text", VObject [(str "body", VString [])])])
           (VString (str "911"))).
  reflexivity.
Defined.

(** The cases of the text: no [text], a [null] text, no [body], an empty
    body, a body. *)
Example message_text_cases :
  V1.message_text (VObject [(str "from", VString (str "911"))]) = Normal (VString []) /\
  V1.message_text (VObject [(str "text", VNull)]) = Normal (VString []) /\
  V1.message_text (VObject [(str "text", VObject [])]) = Normal (VString []) /\
  V1.message_text (VObject [(str "text", VObject [(str "body", VString [])])]) =
    Normal (VString []) /\
  V1.message_text (message (str "911") (str "2 kg sugar")) = Normal (VString (str "2 kg sugar")).
Proof. repeat split; reflexivity. Qed.

(** ** Every run of the POST handler *)

Section Runs.
Variable w : world.

(** The extractor calls the model at most once, and not at all only when
    the message does not convert to text, where it returns [null]. *)
Lemma parseOrderAI_calls (message : value) (t : list effect) :
  exists v calls,
    V1.parseOrderAI w message t = (Normal v, t ++ calls) /\
    ((v = VNull /\ calls = []) \/ exists p, calls = [GenerateContent p]).
Proof.
  unfold V1.parseOrderAI, try_catch, bind, lift, perform, ret.
  destruct (ToString w message) as [m|e].
  - destruct (generateContent_text w (V1.prompt m)) as [text|e];
      [destruct (JSON_parse w text) as [v|e]|];
      do 2 eexists; (split; [reflexivity|]); right; eauto.
  - exists VNull, []. rewrite app_nil_r. auto.
Qed.

Ltac settle :=
  first [ left; eexists; split; [reflexivity|auto; fail]
        | right; split; [reflexivity|]; split; [first [assumption|reflexivity]|]; eauto ].

Ltac close_run :=
  rewrite <- ?app_assoc; cbn [app];
  first [ eexists; split; [settle|]
        | exists []; rewrite app_nil_r; split; [settle|] ];
  (split; [reflexivity|]);
  repeat (apply Forall_cons; [cbn [post_to_sender]; try exact I|]);
  try apply Forall_nil;
  try (split; [reflexivity|]; split; [reflexivity|]; do 2 eexists;
       split; [eassumption|]; split; [eassumption|reflexivity]).

Ltac run_handler data t :=
  unfold try_catch, bind, lift;
  destruct (V1.messages_guard data) as [g|?]; [|close_run];
  destruct (truthy g); [|close_run];
  destruct (V1.first_message data) as [msg|?] eqn:Hmsg; [|close_run];
  destruct (get msg (str "from")) as [from|?] eqn:Hfrom; [|close_run];
  destruct (V1.message_text msg) as [text|?]; [|close_run];
  destruct (parseOrderAI_calls text t) as [parsed [c1 [Hrun Hc1]]];
  rewrite Hrun;
  destruct (truthy parsed) eqn:Htruthy; cbn [negb];
  [ destruct Hc1 as [[-> _]|[prompt ->]]; [discriminate|];
    destruct (V1.priceOrder w parsed) as [[o|]|?]; [| |close_run];
    [ cbv zeta; fold (invoice_name w); unfold V1.generateInvoice;
      destruct (invoice_text w o) as [written [fault|]]; [close_run|];
      destruct (pdf_emits_finish w) eqn:Hfinish; [|close_run]
    | ]
  | ].

(** The first copy: the handler never throws; a run settles with 200 or
    500, or stays pending right after the invoice was opened, and its
    calls are one of the sequences of [call_shape], with every post
    addressed to the sender. *)
Lemma webhook_runs (data : value) (t : list effect) :
  exists calls,
    ((exists r,
         V1.webhook w data t = (Normal r, t ++ calls) /\
         (r = sendStatus 200 \/ r = sendStatus 500)) \/
     (V1.webhook w data t = (Pending, t ++ calls) /\
      pdf_emits_finish w = false /\
      exists p o, calls = [GenerateContent p; GenerateInvoice o (invoice_name w)])) /\
    call_shape calls = true /\
    Forall (post_to_sender w data) calls.
Proof.
  unfold V1.webhook. run_handler data t.
  - unfold V1.deliver, bind, lift.
    destruct (ToString w (product o)) as [p|?]; [|close_run].
    unfold V1.sendWhatsapp, perform.
    destruct (axios_post w _ _ _) as [u'|?]; close_run.
  - unfold V1.sendWhatsapp, perform, ret.
    destruct (axios_post w _ _ _) as [u|?]; close_run.
  - unfold V1.sendWhatsapp, perform, ret.
    destruct (axios_post w _ _ _) as [u|?];
      destruct Hc1 as [[_ ->]|[prompt ->]]; close_run.
Qed.

(** The second copy, likewise. *)
Lemma webhook2_runs (data : value) (t : list effect) :
  exists calls,
    ((exists r,
         V2.webhook w data t = (Normal r, t ++ calls) /\
         (r = sendStatus 200 \/ r = sendStatus 500)) \/
     (V2.webhook w data t = (Pending, t ++ calls) /\
      pdf_emits_finish w = false /\
      exists p o, calls = [GenerateContent p; GenerateInvoice o (invoice_name w)])) /\
    call_shape calls = true /\
    Forall (post_to_sender w data) calls.
Proof.
  unfold V2.webhook.
  change V2.messages_guard with V1.messages_guard.
  change V2.first_message with V1.first_message.
  change V2.message_text with V1.message_text.
  change V2.parseOrderAI with V1.parseOrderAI.
  change V2.priceOrder with V1.priceOrder.
  change V2.sendWhatsapp with V1.sendWhatsapp.
  change V2.generateInvoice with V1.generateInvoice.
  run_handler data t.
  - unfold V2.deliver, perform.
    destruct (axios_post w _ _ _) as [u'|?]; close_run.
  - unfold V1.sendWhatsapp, perform, ret.
    destruct (axios_post w _ _ _) as [u|?]; close_run.
  - unfold V1.sendWhatsapp, perform, ret.
    destruct (axios_post w _ _ _) as [u|?];
      destruct Hc1 as [[_ ->]|[prompt ->]]; close_run.
Qed.

End Runs.

Section RunsOfBothCopies.
Variable w : world.


(** X10: every post the POST handler of either copy makes goes to the
    messages endpoint of the configured phone with the configured bearer
    token, and its [to] field is the [from] of the first message of the
    delivery: a reply reaches nobody but the sender. *)
Theorem replies_go_to_the_sender (data : value) (t : list effect) :
  (exists calls,
      snd (V1.webhook w data t) = t ++ calls /\ Forall (post_to_sender w data) calls) /\
  (exists calls,
      snd (V2.webhook w data t) = t ++ calls /\ Forall (post_to_sender w data) calls).
Proof.
  split.
  - destruct (webhook_runs w data t) as [calls [[[r [Hrun _]]|[Hrun _]] [_ Hposts]]];
      exists calls; now rewrite Hrun.
  - destruct (webhook2_runs w data t) as [calls [[[r [Hrun _]]|[Hrun _]] [_ Hposts]]];
      exists calls; now rewrite Hrun.
Qed.

(** The second copy on a delivery, up to the extractor. *)
Lemma webhook2_on_delivery (from text : jsstring) (t : list effect) :
  V2.messages_guard (delivery from text) = Normal (VArray [message from text]) /\
  V2.first_message (delivery from text) = Normal (message from text) /\
  V2.message_text (message from text) = Normal (VString text).
Proof.
  repeat split; try reflexivity. apply message_text_body.
Qed.

(** X11: when the extractor gives a falsy value (ExtractionFailed), either
    copy posts the text [Sorry, I couldn't understand the order.] to the
    sender and nothing else; the answer is 200 when the post succeeds and
    500 when it throws. *)
Theorem extraction_failure_is_notified
    (from text : jsstring) (parsed : value) (t t' : list effect) :
  V1.parseOrderAI w (VString text) t = (Normal parsed, t') ->
  truthy parsed = false ->
  let body := text_message (VString from) (str "Sorry, I couldn't understand the order.") in
  let outcome : run response * list effect :=
    (Normal (sendStatus match axios_post w (V1.messages_url w) body (V1.bearer w) with
                        | Normal _ => 200
                        | Throw _ => 500
                        end),
     t' ++ [AxiosPost (V1.messages_url w) body (V1.bearer w)]) in
  V1.webhook w (delivery from text) t = outcome /\
  V2.webhook w (delivery from text) t = outcome.
Proof.
  intros Hparse Hfalsy body outcome. subst body outcome. split.
  - unfold V1.webhook, try_catch, bind, lift.
    rewrite delivery_guard, delivery_first_message, message_from, message_text_body.
    cbn [truthy]. rewrite Hparse, Hfalsy. cbn [negb].
    unfold V1.sendWhatsapp, perform, ret, text_message.
    destruct (axios_post w _ _ _); reflexivity.
  - unfold V2.webhook, try_catch, bind, lift.
    destruct (webhook2_on_delivery from text t) as [-> [-> Htext]].
    rewrite message_from, Htext.
    change V2.parseOrderAI with V1.parseOrderAI.
    cbn [truthy]. rewrite Hparse, Hfalsy. cbn [negb].
    unfold V2.sendWhatsapp, perform, ret, text_message.
    destruct (axios_post w _ _ _); reflexivity.
Qed.

(** A string in the [product] field tells that the output is an object. *)
Lemma string_product_truthy (parsed : value) (name : jsstring) :
  get parsed (str "product") = Normal (VString name) -> truthy parsed = true.
Proof.
  destruct parsed; simpl; intros H; try discriminate; reflexivity.
Qed.

(** X12: a priced order, with a PDF document that emits no [finish] (as
    pdfkit's does not).  Either copy opens the invoice under the name
    [invoice-<Date.now()>.pdf] and then never answers: nothing is posted,
    no confirmation reaches the sender.  When a template literal of the
    invoice throws, the promise rejects and the answer is 500, again with
    nothing posted. *)
Theorem priced_order_is_never_confirmed
    (from text : jsstring) (parsed : value) (o : order) (t t' : list effect) :
  V1.parseOrderAI w (VString text) t = (Normal parsed, t') ->
  V1.priceOrder w parsed = Normal (Some o) ->
  pdf_emits_finish w = false ->
  let outcome : run response * list effect :=
    match snd (invoice_text w o) with
    | Some _ => (Normal (sendStatus 500), t' ++ [GenerateInvoice o (invoice_name w)])
    | None => (Pending, t' ++ [GenerateInvoice o (invoice_name w)])
    end in
  V1.webhook w (delivery from text) t = outcome /\
  V2.webhook w (delivery from text) t = outcome.
Proof.
  intros Hparse Hprice Hfinish outcome. subst outcome.
  destruct (priceOrder_product w parsed o Hprice) as [name [Hname _]].
  pose proof (string_product_truthy parsed name Hname) as Htruthy.
  split.
  - rewrite (webhook_after_extraction w from text parsed t t' Hparse Htruthy).
    rewrite Hprice. cbv zeta. fold (invoice_name w).
    unfold V1.generateInvoice. rewrite Hfinish.
    destruct (invoice_text w o) as [written [fault|]]; reflexivity.
  - unfold V2.webhook, try_catch, bind, lift.
    destruct (webhook2_on_delivery from text t) as [-> [-> Htext]].
    rewrite message_from, Htext.
    change V2.parseOrderAI with V1.parseOrderAI.
    change V2.priceOrder with V1.priceOrder.
    cbn [truthy]. rewrite Hparse, Htruthy. cbn [negb].
    rewrite Hprice. cbv zeta. fold (invoice_name w).
    unfold V2.generateInvoice. rewrite Hfinish.
    destruct (invoice_text w o) as [written [fault|]]; reflexivity.
Qed.

(** X14: a delivery whose guard evaluates to a falsy value (no [entry], no
    [changes] in the first entry, no [messages] in the value of the first
    change) is answered 200 by either copy, and no call is made. *)
Theorem acknowledged_and_ignored (data g : value) (t : list effect) :
  V1.messages_guard data = Normal g ->
  truthy g = false ->
  V1.webhook w data t = (Normal (sendStatus 200), t) /\
  V2.webhook w data t = (Normal (sendStatus 200), t).
Proof.
  intros Hg Hfalsy. split.
  - exact (webhook_ignores w data g t Hg Hfalsy).
  - unfold V2.webhook, try_catch, bind, lift.
    change V2.messages_guard with V1.messages_guard.
    now rewrite Hg, Hfalsy.
Qed.

End RunsOfBothCopies.

Lemma extraction_failure_is_notified_witness :
  V1.webhook world_unreachable (delivery (str "911") (str "hello")) [] =
    (Normal (sendStatus 200),
     [GenerateContent (V1.prompt (str "hello"))]
     ++ [AxiosPost (V1.messages_url world_unreachable)
           (text_message (VString (str "911"))
              (str "Sorry, I couldn't understand the order."))
           (V1.bearer world_unreachable)]) /\
  V2.webhook world_unreachable (delivery (str "911") (str "hello")) [] =
    (Normal (sendStatus 200),
     [GenerateContent (V1.prompt (str "hello"))]
     ++ [AxiosPost (V1.messages_url world_unreachable)
           (text_message (VString (str "911"))
              (str "Sorry, I couldn't understand the order."))
           (V1.bearer world_unreachable)]).
Proof.
  apply (extraction_failure_is_notified world_unreachable (str "911") (str "hello")
           VNull [] [GenerateContent (V1.prompt (str "hello"))]); reflexivity.
Defined.

Lemma priced_order_is_never_confirmed_witness :
  V1.webhook
    (world_answering (candidate_text (str "sugar") (str "2") (str "kg"))
       (Normal (candidate (str "sugar") (VNumber 2%float) (str "kg"))))
    (delivery (str "911") (str "2 kg sugar")) [] =
    (Pending,
     [GenerateContent (V1.prompt (str "2 kg sugar"))]
     ++ [GenerateInvoice
           {| product := VString (str "sugar"); quantity := VNumber 2%float;
              unit_ := VString (str "kg"); price := VNumber 40%float;
              total := 80%float |}
           (str "invoice-1700000000000.pdf")]) /\
  V2.webhook
    (world_answering (candidate_text (str "sugar") (str "2") (str "kg"))
       (Normal (candidate (str "sugar") (VNumber 2%float) (str "kg"))))
    (delivery (str "911") (str "2 kg sugar")) [] =
    (Pending,
     [GenerateContent (V1.prompt (str "2 kg sugar"))]
     ++ [GenerateInvoice
           {| product := VString (str "sugar"); quantity := VNumber 2%float;
              unit_ := VString (str "kg"); price := VNumber 40%float;
              total := 80%float |}
           (str "invoice-1700000000000.pdf")]).
Proof.
  apply (priced_order_is_never_confirmed
           (world_answering (candidate_text (str "sugar") (str "2") (str "kg"))
              (Normal (candidate (str "sugar") (VNumber 2%float) (str "kg"))))
           (str "911") (str "2 kg sugar")
           (candidate (str "sugar") (VNumber 2%float) (str "kg"))
           {| product := VString (str "sugar"); quantity := VNumber 2%float;
              unit_ := VString (str "kg"); price := VNumber 40%float;
              total := 80%float |}
           [] [GenerateContent (V1.prompt (str "2 kg sugar"))]); reflexivity.
Defined.

Lemma acknowledged_and_ignored_witness :
  V1.webhook world_plain (VObject []) [] = (Normal (sendStatus 200), []) /\
  V2.webhook world_plain (VObject []) [] = (Normal (sendStatus 200), []).
Proof.
  apply (acknowledged_and_ignored world_plain (VObject []) VUndefined []); reflexivity.
Defined.

Lemma product_not_found_is_notified_witness :
  V1.webhook
    (world_answering (candidate_text (str "flour") (str "1") (str "kg"))
       (Normal (candidate (str "flour") (VNumber 1%float) (str "kg"))))
    (delivery (str "911") (str "1 kg flour")) [] =
    finish
      (V1.sendWhatsapp
         (world_answering (candidate_text (str "flour") (str "1") (str "kg"))
            (Normal (candidate (str "flour") (VNumber 1%float) (str "kg"))))
         (VString (str "911")) (str "Product not found.")
         ([] ++ [GenerateContent (V1.prompt (str "1 kg flour"))])).
Proof.
  apply (product_not_found_is_notified
           (world_answering (candidate_text (str "flour") (str "1") (str "kg"))
              (Normal (candidate (str "flour") (VNumber 1%float) (str "kg"))))
           (str "911") (str "1 kg flour")
           (candidate_text (str "flour") (str "1") (str "kg")) (str "flour")
           (candidate (str "flour") (VNumber 1%float) (str "kg")) []); reflexivity.
Defined.
